(** * vscode-mjml: the preview controller, the content pipeline and the export command

    A shallow embedding of the extension's own code:
    - [Helper]          the content pipeline (class [Helper]);
    - [ExportHTML]      the export command;
    - [PreviewProvider] the content provider of the document-based preview, its
                        [IDMap] and its [PreviewManager];
    - [Preview]         the webview-based preview controller.

    The host editor (the [vscode] API and Node's [fs]) and the third-party
    modules ([mjml], [ejs], [JSON], [path], [file-url]) are not part of the
    repository: they appear as the records [Host] and [Modules], whose fields
    are the calls the code makes. A JavaScript string is a [string]: a
    sequence of code units, here the code units below 256. *)

From Stdlib Require Import String Ascii List Bool Arith ZArith Lia.
Import ListNotations.

Open Scope list_scope.
Open Scope string_scope.

(** ** JavaScript values *)

Module Js.

(** An exception, seen through [err.toString()]. *)
Record Exn := { toString : string }.

(** The result of evaluating an expression: a value, or a thrown exception
    (a rejected promise, for an [async] function). *)
Inductive Outcome (A : Type) : Type :=
| Return (a : A)
| Throw (e : Exn).
Arguments Return {A} a.
Arguments Throw {A} e.

Definition bind {A B} (m : Outcome A) (k : A -> Outcome B) : Outcome B :=
  match m with
  | Return a => k a
  | Throw e => Throw e
  end.

Notation "'let!' x ':=' m 'in' k" := (bind m (fun x => k))
  (at level 10, x pattern, m at level 100, k at level 200).

(** Reading a property of [undefined]. *)
Definition TypeError : Exn :=
  {| toString := "TypeError: Cannot read properties of undefined" |}.

(** The double quote, which a string literal of this file cannot hold. *)
Definition dquote : ascii := ascii_of_nat 34.
Definition squote : ascii := "'"%char.
Definition backslash : ascii := ascii_of_nat 92.

Definition str (c : ascii) : string := String c EmptyString.

(** [if (s)] on a string: every string but the empty one is truthy. *)
Definition truthy (s : string) : bool := negb (s =? "").

(** [if (v)] on a [string | undefined]. *)
Definition truthy_opt (v : option string) : bool :=
  match v with
  | Some s => truthy s
  | None => false
  end.

(** [s.lastIndexOf(c)] for a one-character needle: the index of its last
    occurrence, or -1. *)
Fixpoint lastIndexOf (s : string) (c : ascii) : Z :=
  match s with
  | EmptyString => (-1)%Z
  | String d r =>
      let k := lastIndexOf r c in
      if (0 <=? k)%Z then (k + 1)%Z
      else if Ascii.eqb d c then 0%Z else (-1)%Z
  end.

Fixpoint take (n : nat) (s : string) : string :=
  match n, s with
  | S k, String c r => String c (take k r)
  | _, _ => EmptyString
  end.

Fixpoint drop (n : nat) (s : string) : string :=
  match n, s with
  | S k, String _ r => drop k r
  | _, _ => s
  end.

(** [s.substring(a, b)]: both indices are clamped to [0, length] and swapped
    when out of order. *)
Definition substring (s : string) (a b : Z) : string :=
  let len := Z.of_nat (String.length s) in
  let a' := Z.max 0 (Z.min a len) in
  let b' := Z.max 0 (Z.min b len) in
  let lo := Z.min a' b' in
  let hi := Z.max a' b' in
  take (Z.to_nat (hi - lo)) (drop (Z.to_nat lo) s).

(** Case folding of the regular expression flag [i], on code units: only the
    ASCII letters have a partner among the pattern's characters. *)
Definition fold_case (c : ascii) : ascii :=
  let n := nat_of_ascii c in
  if Nat.leb 65 n && Nat.leb n 90 then ascii_of_nat (n + 32) else c.

Definition eqb_ci (c d : ascii) : bool := Ascii.eqb (fold_case c) (fold_case d).

(** The characters [.] does not match. *)
Definition is_line_terminator (c : ascii) : bool :=
  Ascii.eqb c (ascii_of_nat 10) || Ascii.eqb c (ascii_of_nat 13).

End Js.

Import Js.

(** ** The host editor *)

Module Vscode.

Record Uri := { scheme : string; fsPath : string }.

Record TextDocument := {
  languageId : string;
  uri : Uri;
  fileName : string;
  getText : string
}.

(** An editor always has a document, so the test [!activeTextEditor.document]
    of [displayWebView] never holds. *)
Record TextEditor := { document : TextDocument }.

(** [workspace.getConfiguration("mjml")], the settings the code reads. A
    setting read in a condition is kept as its truth value;
    [previewBackgroundColor] is [None] when it is unset or empty. *)
Record Configuration := {
  autoPreview : bool;
  updateWhenTyping : bool;
  autoClosePreview : bool;
  preserveFocus : bool;
  minifyHtmlOutput : bool;
  beautifyHtmlOutput : bool;
  previewBackgroundColor : option string
}.

(** What the code reads of the editor and of the file system when it runs. *)
Record Host := {
  activeTextEditor : option TextEditor;      (* window.activeTextEditor *)
  textDocuments : list TextDocument;         (* workspace.textDocuments *)
  rootPath : option string;                  (* workspace.rootPath, when truthy *)
  configuration : Configuration;
  existsSync : string -> bool;               (* fs.existsSync *)
  readFileSync : string -> Outcome string    (* fs.readFileSync(_, "utf8") *)
}.

End Vscode.

Import Vscode.

(** ** The third-party modules *)

(** The options object [Helper.mjml2html] hands to the compiler. *)
Record MjmlOptions := {
  level : string;
  minify : bool;
  beautify : bool;
  filePath : string;
  cwd : string
}.

(** The compiler's result, seen through its [html] field: [None] when the
    field is missing. *)
Record MjmlResult := { html : option string }.

(** [JSON.parse] of preview.json, seen through the two fields the code reads:
    [helpers] is [None] when the field is falsy. A text that parses to a
    value without fields makes [config.data] throw; this is part of the
    parser's outcome below. *)
Record PreviewJson (Data : Type) := {
  data : Data;
  helpers : option string
}.
Arguments data {Data} _.
Arguments helpers {Data} _.

Record Modules := {
  Data : Type;                                          (* config.data *)
  HelperModule : Type;                                  (* an imported helper module *)
  mjml_mjml2html : string -> MjmlOptions -> Outcome MjmlResult;
  JSON_parse : string -> Outcome (PreviewJson Data);
  import : string -> Outcome HelperModule;
  set_helpers : Data -> HelperModule -> Outcome Data;   (* data.helpers = helpers *)
  ejs_compile : string -> string -> Outcome (Data -> Outcome string);
  path_dirname : string -> string;
  path_join : string -> string -> string;
  path_basename : string -> string;
  path_parse_dir : string -> string;                    (* path.parse(p).dir *)
  fileUrl : string -> string
}.

(** ** The regular expression of [fixLinks]

    The pattern, with Q standing for the double quote, is
    [/((?:src|href|url)(?:=|\()(?:['Q]|))((?!http|\\|Q|#).+?)(['Q]|\))/gmi].
    It is matched the way a backtracking matcher does: alternatives in the
    order written, the lazy [.+?] extended one character at a time. *)

Module LinkRegex.

(** The three capture groups of a match. *)
Record Match := { p1 : string; p2 : string; p3 : string }.

Definition matched (m : Match) : string := p1 m ++ p2 m ++ p3 m.

(** The first alternative that succeeds. *)
Fixpoint first_some {A B} (f : A -> option B) (l : list A) : option B :=
  match l with
  | [] => None
  | a :: r =>
      match f a with
      | Some b => Some b
      | None => first_some f r
      end
  end.

(** [pat] at the head of [s], letters compared without case: the text that
    matched and what follows it. *)
Fixpoint literal_ci (pat s : string) : option (string * string) :=
  match pat, s with
  | EmptyString, _ => Some (EmptyString, s)
  | String c pat', String d s' =>
      if eqb_ci c d then
        match literal_ci pat' s' with
        | Some (m, r) => Some (String d m, r)
        | None => None
        end
      else None
  | String _ _, EmptyString => None
  end.

(** One character of a class at the head of [s]. *)
Definition one_of (cls : list ascii) (s : string) : option (string * string) :=
  match s with
  | String c r => if existsb (Ascii.eqb c) cls then Some (str c, r) else None
  | EmptyString => None
  end.

(** [(?!http|\\|Q|#)]: true when the lookahead forbids a match here. *)
Definition lookahead_blocks (s : string) : bool :=
  match first_some (fun pat => literal_ci pat s)
          ["http"; str backslash; str dquote; "#"] with
  | Some _ => true
  | None => false
  end.

Definition closers : list ascii := [squote; dquote; ")"%char].

(** The lazy part of [.+?] followed by group 3: at each character, group 3 is
    tried first; failing that, [.] takes the character, unless it is a line
    terminator. The result is the text [.] took, the closer and the rest. *)
Fixpoint lazy_then_closer (s : string) : option (string * string * string) :=
  match s with
  | EmptyString => None
  | String c r =>
      if existsb (Ascii.eqb c) closers then Some (EmptyString, str c, r)
      else if is_line_terminator c then None
      else
        match lazy_then_closer r with
        | Some (v, t, rest) => Some (String c v, t, rest)
        | None => None
        end
  end.

(** Groups 2 and 3: the lookahead, the first character of [.+?] (any
    character but a line terminator), then [lazy_then_closer]. *)
Definition value_then_closer (s : string) : option (string * string * string) :=
  if lookahead_blocks s then None
  else
    match s with
    | EmptyString => None
    | String c r =>
        if is_line_terminator c then None
        else
          match lazy_then_closer r with
          | Some (v, t, rest) => Some (String c v, t, rest)
          | None => None
          end
    end.

(** The whole pattern at the head of [s]. The optional quote [(?:['Q]|)] is
    tried with a quote first and, when the rest then fails, without one. *)
Definition match_at (s : string) : option Match :=
  first_some (fun kw =>
    match literal_ci kw s with
    | None => None
    | Some (k, r1) =>
        first_some (fun sep =>
          match one_of [sep] r1 with
          | None => None
          | Some (e, r2) =>
              let finish (q r3 : string) :=
                match value_then_closer r3 with
                | Some (v, t, _) => Some {| p1 := k ++ e ++ q; p2 := v; p3 := t |}
                | None => None
                end in
              let quoted :=
                match one_of [squote; dquote] r2 with
                | Some (q, r3) => finish q r3
                | None => None
                end in
              match quoted with
              | Some m => Some m
              | None => finish EmptyString r2
              end
          end) ["="%char; "("%char]
    end) ["src"; "href"; "url"].

(** [text.replace(re, (_, p1, p2, p3) => p1 + f(p2) + p3)] with the
    flag [g]: matches are looked for from left to right, each search starting
    where the last match ended. [skip] counts the characters of the current
    match that are still to be passed over. *)
Fixpoint replace_from (f : string -> string) (skip : nat) (s : string) : string :=
  match s with
  | EmptyString => EmptyString
  | String c r =>
      match skip with
      | S k => replace_from f k r
      | O =>
          match match_at s with
          | Some m =>
              p1 m ++ f (p2 m) ++ p3 m
                 ++ replace_from f (String.length (matched m) - 1) r
          | None => String c (replace_from f 0 r)
          end
      end
  end.

Definition replace (f : string -> string) (s : string) : string :=
  replace_from f 0 s.

(** Whether the pattern matches anywhere in [s]. *)
Fixpoint test (s : string) : bool :=
  match match_at s with
  | Some _ => true
  | None =>
      match s with
      | EmptyString => false
      | String _ r => test r
      end
  end.

End LinkRegex.

(** ** The content pipeline: class [Helper] *)

Module Helper.

(** [vscode.window.activeTextEditor.document]: reading [document] of
    [undefined] throws. *)
Definition activeDocument (h : Host) : Outcome TextDocument :=
  match activeTextEditor h with
  | Some editor => Return (document editor)
  | None => Throw TypeError
  end.

Definition isMJMLFile (document : TextDocument) : bool :=
  (languageId document =? "mjml") && negb (scheme (uri document) =? "mjml-preview").

(** What a call of [renderMJML] ends in. *)
Inductive Rendered (R : Type) : Type :=
| showWarningMessage (message : string)
| showErrorMessage (message : string)
| callback (result : R).
Arguments showWarningMessage {R} message.
Arguments showErrorMessage {R} message.
Arguments callback {R} result.

(** An optional argument, or the setting that stands in for it. *)
Definition orSetting (argument : option bool) (setting : bool) : bool :=
  match argument with
  | Some b => b
  | None => setting
  end.

Section WithModules.

Variable M : Modules.

Definition getCWD (h : Host) : Outcome string :=
  match rootPath h with
  | Some root => Return root
  | None =>
      let! document := activeDocument h in
      Return (path_parse_dir M (fsPath (uri document)))
  end.

(** The call of the compiler inside the [try] block of [mjml2html]: the
    options object is built first, field by field, then the compiler runs. *)
Definition compilerCall (h : Host) (mjml : string) (minify beautify : bool)
  : Outcome MjmlResult :=
  let! document := activeDocument h in
  let! cwd := getCWD h in
  mjml_mjml2html M mjml
    {| level := "skip"; minify := minify; beautify := beautify;
       filePath := fsPath (uri document); cwd := cwd |}.

(** [mjml2html]: [None] is JavaScript's [undefined]. *)
Definition mjml2html (h : Host) (mjml : string) (minify beautify : bool)
  : Outcome (option string) :=
  match compilerCall h mjml minify beautify with
  | Return result =>
      if truthy_opt (html result) then Return (html result) else Return None
  | Throw _ => Return None
  end.

Definition resolveFileOrText (h : Host) (name : string) : Outcome (option string) :=
  match find (fun e => fileName e =? name) (textDocuments h) with
  | Some document => Return (Some (getText document))
  | None =>
      if truthy (path_dirname M name) && existsSync h name then
        let! text := readFileSync h name in
        Return (Some text)
      else Return None
  end.

(** [compileHtml], the templating pre-pass. The host is read before the
    first [await]; what follows it uses the module's values only. *)
Definition compileHtml (h : Host) (html : string) : Outcome string :=
  let! document := activeDocument h in
  let currentFileName := fileName document in
  let fileFolder :=
    substring currentFileName 0 (lastIndexOf currentFileName "/"%char) in
  let dataFileName := fileFolder ++ "/preview.json" in
  let! dataSource := resolveFileOrText h dataFileName in
  match dataSource with
  | Some source =>
      if truthy source then
        let! config := JSON_parse M source in
        let! data :=
          match helpers config with
          | Some name =>
              let helperFileName := fileFolder ++ "/" ++ name in
              let! module := import M helperFileName in
              set_helpers M (data config) module
          | None => Return (data config)
          end in
        let! compiled := ejs_compile M html currentFileName in
        compiled data
      else Return html
  | None => Return html
  end.

(** The replacement callback of [fixLinks], for the active document's path. *)
Definition absolute (fsPath p2 : string) : string :=
  fileUrl M (path_join M (path_dirname M fsPath) p2).

(** [fixLinks]. The callback reads the active editor once per match, so
    without an editor it throws at the first match. *)
Definition fixLinks (h : Host) (text : string) : Outcome string :=
  match activeTextEditor h with
  | Some editor =>
      Return (LinkRegex.replace (absolute (fsPath (uri (document editor)))) text)
  | None => if LinkRegex.test text then Throw TypeError else Return text
  end.

(** [renderMJML]: [h] is the host when the call starts, [h'] the host when
    it continues after [await compileHtml]. An argument left out is [None]. *)
Definition renderMJML {R} (h h' : Host) (cb : string -> Outcome R)
    (fixLinksArg minifyArg beautifyArg : option bool) : Outcome (Rendered R) :=
  let! document := activeDocument h in
  if negb (isMJMLFile document) then
    Return (showWarningMessage "This is not a MJML document!")
  else
    let! document := activeDocument h in
    let! content := compileHtml h (getText document) in
    let! content :=
      mjml2html h' content
        (orSetting minifyArg (minifyHtmlOutput (configuration h')))
        (orSetting beautifyArg (beautifyHtmlOutput (configuration h'))) in
    match content with
    | Some content =>
        if truthy content then
          let! content :=
            match fixLinksArg with
            | Some true => fixLinks h' content
            | _ => Return content
            end in
          let! result := cb content in
          Return (callback result)
        else
          let! document := activeDocument h' in
          Return (showErrorMessage
                    ("MJMLError: Failed to parse file "
                       ++ path_basename M (fsPath (uri document))))
    | None =>
        let! document := activeDocument h' in
        Return (showErrorMessage
                  ("MJMLError: Failed to parse file "
                     ++ path_basename M (fsPath (uri document))))
    end.

End WithModules.

End Helper.

(** ** The export command: class [ExportHTML] *)

Module ExportHTML.

(** [name.replace(/\.[^\.]+$/, "")]: the text from the last dot on is cut
    when at least one character follows that dot. *)
Definition withoutExtension (name : string) : string :=
  let k := lastIndexOf name "."%char in
  if ((0 <=? k) && (k + 1 <? Z.of_nat (String.length name)))%Z
  then substring name 0 k else name.

(** [fs.writeFile(file, content, ...)]. *)
Record FileWrite := { file : string; written : string }.

Section WithModules.

Variable M : Modules.
(** [path.resolve], which the export alone uses. *)
Variable path_resolve : string -> string -> string.

(** The callback [export] hands to [renderMJML], followed to its end: [h'] is
    the host when the callback runs, [h''] the host when the input box closes
    with [answer] ([None] when it was dismissed). The outcome is the file
    written, or the exception met on the way. *)
Definition write (h' h'' : Host) (answer : option string) (content : string)
  : Outcome FileWrite :=
  let! document := Helper.activeDocument h' in
  let defaultFileName :=
    withoutExtension (path_basename M (fsPath (uri document))) in
  let fileName :=
    match answer with
    | Some typed => if truthy typed then withoutExtension typed else defaultFileName
    | None => defaultFileName
    end in
  let! document := Helper.activeDocument h'' in
  Return {| file := path_resolve (fsPath (uri document)) ("../" ++ fileName ++ ".html");
            written := content |}.

Definition export (h h' h'' : Host) (answer : option string)
  : Outcome (Helper.Rendered FileWrite) :=
  Helper.renderMJML M h h' (write h' h'' answer) None None None.

End WithModules.

End ExportHTML.

(** ** The document-based preview: previewProvider.ts *)

Module PreviewContentProvider.

Definition error (message : string) : string := "<body>" ++ message ++ "</body>".

Definition notMJML : string := "Active editor doesn't show a MJML document.".

Section WithModules.

Variable M : Modules.

(** [renderMJML] of the provider created for [document]: [h] is the host
    when the call starts, [h'] the host when it continues after
    [await helper.compileHtml]. *)
Definition renderMJML (h h' : Host) (document : TextDocument) : Outcome string :=
  match Helper.compileHtml M h (getText document) with
  | Throw err => Return (error (toString err))
  | Return html =>
      let! html := Helper.mjml2html M h' html false false in
      match html with
      | Some html =>
          if truthy html then Helper.fixLinks M h' html else Return (error notMJML)
      | None => Return (error notMJML)
      end
  end.

Definition provideTextDocumentContent (h h' : Host) (document : TextDocument)
  : Outcome string :=
  if negb (languageId document =? "mjml") then Return (error notMJML)
  else renderMJML h h' document.

End WithModules.

End PreviewContentProvider.

Module IDMap.

(** [Math.random]: the draws to come, each already scaled to an integer by
    [Math.random() * 16 | 0], and the number of draws made. *)
Record Random := { draw : nat -> nat; drawn : nat }.

Definition next (g : Random) : nat * Random :=
  (draw g (drawn g) mod 16, {| draw := draw g; drawn := S (drawn g) |}).

(** [v.toString(16)] for [v < 16]. *)
Definition hexDigit (v : nat) : ascii :=
  nth v (list_ascii_of_string "0123456789abcdef") "0"%char.

(** [template.replace(/[xy]/g, ...)]: every [x] and [y] is replaced by a
    digit drawn for it, the other characters are kept. *)
Fixpoint fill (template : string) (g : Random) : string * Random :=
  match template with
  | EmptyString => (EmptyString, g)
  | String c rest =>
      if Ascii.eqb c "x"%char || Ascii.eqb c "y"%char then
        let (r, g1) := next g in
        let v := if Ascii.eqb c "x"%char then r else Nat.lor (Nat.land r 3) 8 in
        let (s, g2) := fill rest g1 in
        (String (hexDigit v) s, g2)
      else
        let (s, g2) := fill rest g in
        (String c s, g2)
  end.

Definition UUIDv4 (g : Random) : string * Random :=
  fill "xxxxxxxx-xxxx-4xxx-yxxx-xxxxxxxxxxxx" g.

(** A key of the map: the array [[documentUri, previewUri]]. A [Map] compares
    keys that are arrays by identity and keeps its entries in the order they
    were set. [add] sets a new array each time, so every [set] adds an entry
    at the end, and an entry is its own key. *)
Record Key := { documentUri : string; previewUri : Uri }.

Definition t : Type := list (Key * string).

Definition empty : t := [].

(** [key.indexOf(uri) > -1]: [uri] is a string, so of the array's two
    elements only the first, the document's string, can be identical to it. *)
Definition holds (key : Key) (uri : string) : bool := documentUri key =? uri.

(** The loop of [getByUri]: the value of the first key that holds [uri]. *)
Fixpoint getByUri (map : t) (uri : string) : option string :=
  match map with
  | [] => None
  | (key, id) :: rest => if holds key uri then Some id else getByUri rest uri
  end.

(** [getByUri(uri) != undefined]. *)
Definition hasUri (map : t) (uri : string) : bool :=
  match getByUri map uri with
  | Some _ => true
  | None => false
  end.

Definition add (g : Random) (map : t) (documentUri : string) (previewUri : Uri)
  : string * t * Random :=
  let (id, g') := UUIDv4 g in
  (id, (map ++ [({| documentUri := documentUri; previewUri := previewUri |}, id)])%list, g').

(** One more document added; the identifier [add] returns is dropped. *)
Definition added (state : t * Random) (entry : string * Uri) : t * Random :=
  let result := add (snd state) (fst state) (fst entry) (snd entry) in
  (snd (fst result), snd result).

(** The map after the documents of [l] were added one after the other. *)
Definition addAll (g : Random) (map : t) (l : list (string * Uri)) : t * Random :=
  fold_left added l (map, g).

End IDMap.

(** ** The preview controller: class [Preview] *)

Module Preview.

(** The result of [mjmlToHtml], seen through its [html] field. *)
Record MjmlOutput := { html : string }.

(** What the controller calls and the sources at hand do not define:
    [mjmlToHtml] and [fixImages] of the module ./helper, [path.basename], and
    the two built-in string operations of [setBackgroundColor]. The helper's
    [isMJMLFile] and [compileHtml] are taken from class [Helper]. *)
Record Imports := {
  mjmlToHtml : string -> bool -> bool -> string -> string -> Outcome MjmlOutput;
  fixImages : string -> string -> Outcome string;
  basename : string -> string;
  (* /<.*head.*>/i.exec(html): the matched text, when there is a match and
     the text is not empty *)
  execHead : string -> option string;
  (* text.replace(pattern, replacement), both strings *)
  replaceString : string -> string -> string -> string
}.

Inductive ViewColumn := One | Two.

(** A webview panel of the host: what [createWebviewPanel] sets and what the
    controller writes later. *)
Record WebviewPanel := {
  viewType : string;
  title : string;
  viewColumn : ViewColumn;
  retainContextWhenHidden : bool;
  webview_html : string
}.

(** The fields of the class; [webview] holds the handle of a panel. *)
Record Controller := {
  openedDocuments : list string;
  previewOpen : bool;
  webview : option nat
}.

(** A call of [displayWebView] suspended at an [await]. *)
Inductive Suspended :=
| inGetContent (document : TextDocument) (activeTextEditor : TextEditor)
    (compiled : Outcome string)          (* at [await compileHtml(...)] *)
| inDisplayWebView (activeTextEditor : TextEditor)
    (content : string).                  (* at [await this.getContent(...)] *)

(** Calls that act on the host's window. *)
Inductive WindowCall :=
| showErrorMessage (message : string)
| showTextDocument (document : TextDocument) (column : ViewColumn).

(** The controller, the panels that are alive (by handle, in the order of
    their creation), the handle the next panel gets, the suspended calls and
    the window calls made so far. *)
Record World := {
  this : Controller;
  panels : list (nat * WebviewPanel);
  nextHandle : nat;
  suspended : list Suspended;
  window : list WindowCall
}.

Definition initial : World :=
  {| this := {| openedDocuments := []; previewOpen := false; webview := None |};
     panels := []; nextHandle := 0; suspended := []; window := [] |}.

Definition withThis (c : Controller) (w : World) : World :=
  {| this := c; panels := panels w; nextHandle := nextHandle w;
     suspended := suspended w; window := window w |}.

Definition withSuspended (l : list Suspended) (w : World) : World :=
  {| this := this w; panels := panels w; nextHandle := nextHandle w;
     suspended := l; window := window w |}.

Definition call (c : WindowCall) (w : World) : World :=
  {| this := this w; panels := panels w; nextHandle := nextHandle w;
     suspended := suspended w; window := (window w ++ [c])%list |}.

Definition error (message : string) : string := "<body>" ++ message ++ "</body>".

Definition notMJML : string := "Active editor doesn't show a MJML document.".

(** [array.indexOf(x)]: the first index of [x], or -1. *)
Fixpoint indexOf (l : list string) (x : string) : Z :=
  match l with
  | [] => (-1)%Z
  | y :: r =>
      if y =? x then 0%Z
      else let k := indexOf r x in if (k <? 0)%Z then (-1)%Z else (k + 1)%Z
  end.

Definition addDocument (fileName : string) (c : Controller) : Controller :=
  if (indexOf (openedDocuments c) fileName =? -1)%Z then
    {| openedDocuments := (openedDocuments c ++ [fileName])%list;
       previewOpen := previewOpen c; webview := webview c |}
  else c.

Definition removeDocument (fileName : string) (c : Controller) : Controller :=
  {| openedDocuments := filter (fun file => negb (file =? fileName)) (openedDocuments c);
     previewOpen := previewOpen c; webview := webview c |}.

Definition newline : string := str (ascii_of_nat 10).

(** The template literal of [setBackgroundColor]. *)
Definition styled (tag color : string) : string :=
  tag ++ newline ++ "<style>" ++ newline
    ++ "                    html, body { background-color: " ++ color ++ "; }" ++ newline
    ++ "                </style>".

(** The host disposes the panel [handle]: it leaves the live panels, and the
    listener [displayWebView] gave to [onDidDispose] runs. Every panel of the
    world was created by [displayWebView], so every panel has this listener.
    Disposing a panel that is not alive does nothing. *)
Definition disposePanel (handle : nat) (w : World) : World :=
  if existsb (fun p => fst p =? handle)%nat (panels w) then
    {| this := {| openedDocuments := openedDocuments (this w);
                  previewOpen := false; webview := None |};
       panels := filter (fun p => negb (fst p =? handle)%nat) (panels w);
       nextHandle := nextHandle w; suspended := suspended w; window := window w |}
  else w.

Definition dispose (w : World) : World :=
  match webview (this w) with
  | Some handle => disposePanel handle w
  | None => w
  end.

(** [panel.title = label; panel.webview.html = content] on the panel [handle]. *)
Definition retitle (handle : nat) (label content : string)
    (p : nat * WebviewPanel) : nat * WebviewPanel :=
  if (fst p =? handle)%nat then
    (fst p, {| viewType := viewType (snd p); title := label;
               viewColumn := viewColumn (snd p);
               retainContextWhenHidden := retainContextWhenHidden (snd p);
               webview_html := content |})
  else p.

Fixpoint removeNth {A} (n : nat) (l : list A) : list A :=
  match n, l with
  | _, [] => []
  | O, _ :: r => r
  | S k, a :: r => a :: removeNth k r
  end.

Section WithImports.

Variable M : Modules.
Variable I : Imports.

Definition setBackgroundColor (h : Host) (text : string) : string :=
  match previewBackgroundColor (configuration h) with
  | Some color =>
      match execHead I text with
      | Some tag => replaceString I text tag (styled tag color)
      | None => text
      end
  | None => text
  end.

(** [getContent] from its [await] on: [compiled] is what [compileHtml] came
    to, [h] the host now. [addDocument] runs before [fixImages] is called,
    so the controller is returned beside the outcome. *)
Definition getContentResume (h : Host) (document : TextDocument)
    (compiled : Outcome string) (c : Controller) : Controller * Outcome string :=
  match compiled with
  | Throw err => (c, Return (error (toString err)))
  | Return text =>
      match mjmlToHtml I text false false (fsPath (uri document)) "skip" with
      | Throw e => (c, Throw e)
      | Return output =>
          if truthy (html output) then
            (addDocument (fileName document) c,
             let! fixed := fixImages I (html output) (fsPath (uri document)) in
             Return (setBackgroundColor h fixed))
          else (c, Return (error notMJML))
      end
  end.

(** A whole call of [getContent]: [h] is the host when it starts, [h'] the
    host and [c] the controller when it continues after the [await]. *)
Definition getContent (h h' : Host) (document : TextDocument) (c : Controller)
  : Controller * Outcome string :=
  getContentResume h' document (Helper.compileHtml M h (getText document)) c.

(** [displayWebView] up to the first [await], inside [getContent]. *)
Definition displayWebView (h : Host) (document : TextDocument) (w : World) : World :=
  if negb (Helper.isMJMLFile document) then w
  else
    match activeTextEditor h with
    | None => w
    | Some editor =>
        withSuspended
          (suspended w
             ++ [inGetContent document editor
                   (Helper.compileHtml M h (getText document))])%list w
    end.

(** [displayWebView] from [await this.getContent(document)] on. *)
Definition displayWebViewResume (h : Host) (editor : TextEditor)
    (content : string) (w : World) : World :=
  let label := "MJML Preview - " ++ basename I (fileName (Vscode.document editor)) in
  match webview (this w) with
  | None =>
      let created :=
        {| this := {| openedDocuments := openedDocuments (this w);
                      previewOpen := previewOpen (this w);
                      webview := Some (nextHandle w) |};
           panels :=
             (panels w
                ++ [(nextHandle w,
                     {| viewType := "mjml-preview"; title := label;
                        viewColumn := Two; retainContextWhenHidden := true;
                        webview_html := content |})])%list;
           nextHandle := S (nextHandle w);
           suspended := suspended w; window := window w |} in
      if preserveFocus (configuration h)
      then call (showTextDocument (Vscode.document editor) One) created
      else created
  | Some handle =>
      {| this := this w;
         panels := map (retitle handle label content) (panels w);
         nextHandle := nextHandle w;
         suspended := suspended w; window := window w |}
  end.

(** The [n]-th suspended call continues. *)
Definition resume (h : Host) (n : nat) (w : World) : World :=
  match nth_error (suspended w) n with
  | None => w
  | Some (inGetContent document editor compiled) =>
      let w := withSuspended (removeNth n (suspended w)) w in
      let (c, content) := getContentResume h document compiled (this w) in
      match content with
      | Return content =>
          withSuspended (suspended w ++ [inDisplayWebView editor content])%list
            (withThis c w)
      | Throw _ => withThis c w
      end
  | Some (inDisplayWebView editor content) =>
      displayWebViewResume h editor content
        (withSuspended (removeNth n (suspended w)) w)
  end.

(** What happens to the controller: the command, the five listeners of the
    constructor (their argument may be missing), the host disposing a panel
    the user closed, the extension disposing the controller, and a suspended
    call continuing. *)
Inductive Event :=
| previewToSide
| onDidOpenTextDocument (document : option TextDocument)
| onDidChangeActiveTextEditor (editor : option TextEditor)
| onDidChangeTextDocument (event : option TextDocument)
| onDidSaveTextDocument (document : option TextDocument)
| onDidCloseTextDocument (document : option TextDocument)
| panelClosed (handle : nat)
| disposed
| continues (n : nat).

Definition setPreviewOpen (w : World) : World :=
  withThis {| openedDocuments := openedDocuments (this w);
              previewOpen := true; webview := webview (this w) |} w.

Definition isSome {A} (o : option A) : bool :=
  match o with
  | Some _ => true
  | None => false
  end.

(** One event, with the host as it is when the event is handled. *)
Definition step (h : Host) (e : Event) (w : World) : World :=
  match e with
  | previewToSide =>
      match activeTextEditor h with
      | Some editor => displayWebView h (Vscode.document editor) (setPreviewOpen w)
      | None => call (showErrorMessage notMJML) w
      end
  | onDidOpenTextDocument (Some document) =>
      if previewOpen (this w) && autoPreview (configuration h)
      then displayWebView h document w else w
  | onDidChangeActiveTextEditor (Some editor) =>
      if previewOpen (this w) && autoPreview (configuration h)
      then displayWebView h (Vscode.document editor) w else w
  | onDidChangeTextDocument (Some document) =>
      if previewOpen (this w) && updateWhenTyping (configuration h)
      then displayWebView h document w else w
  | onDidSaveTextDocument (Some document) =>
      if previewOpen (this w) then displayWebView h document w else w
  | onDidCloseTextDocument (Some document) =>
      if previewOpen (this w) && isSome (webview (this w)) then
        let w := withThis (removeDocument (fileName document) (this w)) w in
        if (List.length (openedDocuments (this w)) =? 0)%nat
           && autoClosePreview (configuration h)
        then dispose w else w
      else w
  | panelClosed handle => disposePanel handle w
  | disposed => dispose w
  | continues n => resume h n w
  | _ => w
  end.

(** A history: the events in the order they are handled, first to last. *)
Fixpoint run (history : list (Host * Event)) (w : World) : World :=
  match history with
  | [] => w
  | (h, e) :: rest => run rest (step h e w)
  end.

End WithImports.

End Preview.

(** ** The manager of the document-based preview: class [PreviewManager] *)

Module PreviewManager.

(** A [Map] with strings as keys: [set] replaces the value of a key that is
    there, where it stands, and adds a new key at the end. *)
Fixpoint set {V} (m : list (string * V)) (key : string) (value : V)
  : list (string * V) :=
  match m with
  | [] => [(key, value)]
  | (k, v) :: rest =>
      if k =? key then (key, value) :: rest else (k, v) :: set rest key value
  end.

Fixpoint get {V} (m : list (string * V)) (key : string) : option V :=
  match m with
  | [] => None
  | (k, v) :: rest => if k =? key then Some v else get rest key
  end.

(** [map.get(key)] for a key that may be [undefined]: no entry has it. *)
Definition getMaybe {V} (m : list (string * V)) (key : option string) : option V :=
  match key with
  | Some k => get m k
  | None => None
  end.

(** The fields of [MJMLView] that hold data. *)
Record MJMLView := {
  document : TextDocument;
  previewUri : Uri;
  viewColumn : Preview.ViewColumn;
  label : string
}.

(** What a view asks of the host. *)
Inductive Call :=
| executeCommand (command : string) (uri : Uri) (column : Preview.ViewColumn)
    (label : string)
| showTextDocument (document : TextDocument)
| showErrorMessage (reason : string).

(** [execute]: the command it sends. *)
Definition execute (view : MJMLView) : Call :=
  executeCommand "vscode.previewHtml" (previewUri view) (viewColumn view) (label view).

(** The two callbacks of [execute], when the command has settled: with
    [inl success], or with [inr reason] when it failed. *)
Definition executed (h : Host) (view : MJMLView) (settled : bool + string)
  : list Call :=
  match settled with
  | inl _ =>
      match viewColumn view with
      | Preview.Two =>
          if preserveFocus (configuration h)
          then [showTextDocument (document view)] else []
      | Preview.One => []
      end
  | inr reason => [showErrorMessage reason]
  end.

(** The fields of the manager, the views constructed so far and the calls
    made so far. *)
Record Manager := {
  IDMap : IDMap.t;
  fileMap : list (string * MJMLView);
  random : IDMap.Random;
  constructed : list MJMLView;
  calls : list Call
}.

Definition initial (g : IDMap.Random) : Manager :=
  {| IDMap := IDMap.empty; fileMap := []; random := g;
     constructed := []; calls := [] |}.

Section WithHost.

(** [vscode.Uri.parse] and [JSON.stringify({ uri: uri })]. *)
Variable parse : string -> Uri.
Variable stringify : Uri -> string.

(** [createUri] does not use its argument. *)
Definition createUri (uri : Uri) : Uri :=
  parse "mjml-preview://authority/mjml-preview/sidebyside/".

(** The constructor of [MJMLView]. *)
Definition newView (document : TextDocument) : MJMLView :=
  {| document := document;
     previewUri := createUri (uri document);
     viewColumn := Preview.Two;
     label := "MJML Preview" |}.

Definition createDocumentUri (uri : Uri) : string := stringify uri.

(** [previewCommand]: the view to show is constructed for a document that
    is not registered, and looked up otherwise; calling [execute] on a view
    that is [undefined] throws. *)
Definition previewCommand (h : Host) (m : Manager) : Outcome Manager :=
  let! active := Helper.activeDocument h in
  let documentURI := createDocumentUri (uri active) in
  if negb (IDMap.hasUri (IDMap m) documentURI) then
    let! active := Helper.activeDocument h in
    let mjmlPreview := newView active in
    let added := IDMap.add (random m) (IDMap m) documentURI (previewUri mjmlPreview) in
    Return {| IDMap := snd (fst added);
              fileMap := set (fileMap m) (fst (fst added)) mjmlPreview;
              random := snd added;
              constructed := (constructed m ++ [mjmlPreview])%list;
              calls := (calls m ++ [execute mjmlPreview])%list |}
  else
    match getMaybe (fileMap m) (IDMap.getByUri (IDMap m) documentURI) with
    | Some mjmlPreview =>
        Return {| IDMap := IDMap m; fileMap := fileMap m; random := random m;
                  constructed := constructed m;
                  calls := (calls m ++ [execute mjmlPreview])%list |}
    | None => Throw TypeError
    end.

(** The command run once for each host of [history], first to last; a run
    that throws leaves the manager as it was. *)
Fixpoint commands (history : list Host) (m : Manager) : Manager :=
  match history with
  | [] => m
  | h :: rest =>
      match previewCommand h m with
      | Return m' => commands rest m'
      | Throw _ => commands rest m
      end
  end.

End WithHost.

End PreviewManager.

(** ** A concrete host, for the examples below *)

Module Demo.

(** The text after the last slash, and the text before it. *)
Definition afterSlash (p : string) : string :=
  drop (Z.to_nat (lastIndexOf p "/"%char + 1)) p.

Definition beforeSlash (p : string) : string :=
  if (lastIndexOf p "/"%char <? 0)%Z then "."
  else substring p 0 (lastIndexOf p "/"%char).

(** The page the stand-in compiler returns for a document that holds one
    image: the image keeps the address the document gives it. *)
Definition page : string :=
  "<html><head></head><body><img src=" ++ str dquote ++ "logo.png" ++ str dquote
    ++ "></body></html>".

Definition source : string :=
  "<mjml><mj-body><mj-image src=" ++ str dquote ++ "logo.png" ++ str dquote
    ++ " /></mj-body></mjml>".

(** Stand-ins for the third-party modules: a compiler that knows [source]
    and fails on every other text, a JSON parser that accepts nothing, and
    path functions for absolute POSIX paths without dots. *)
Definition modules : Modules :=
  {| Data := unit;
     HelperModule := unit;
     mjml_mjml2html := fun mjml _ =>
       if mjml =? source then Return {| html := Some page |}
       else Throw {| toString := "Error: Parsing failed" |};
     JSON_parse := fun _ => Throw {| toString := "SyntaxError: Unexpected token" |};
     import := fun _ => Throw {| toString := "Error: Cannot find module" |};
     set_helpers := fun d _ => Return d;
     ejs_compile := fun text _ => Return (fun _ => Return text);
     path_dirname := beforeSlash;
     path_join := fun a b => a ++ "/" ++ b;
     path_basename := afterSlash;
     path_parse_dir := beforeSlash;
     fileUrl := fun p => "file://" ++ p |}.

Definition resolve (from to : string) : string := beforeSlash from ++ drop 2 to.

Definition newsletter : TextDocument :=
  {| languageId := "mjml";
     uri := {| scheme := "file"; fsPath := "/mail/news.mjml" |};
     fileName := "/mail/news.mjml";
     getText := source |}.

Definition notes : TextDocument :=
  {| languageId := "plaintext";
     uri := {| scheme := "file"; fsPath := "/mail/notes.txt" |};
     fileName := "/mail/notes.txt";
     getText := "to do" |}.

Definition settings (close : bool) : Configuration :=
  {| autoPreview := true; updateWhenTyping := true; autoClosePreview := close;
     preserveFocus := false; minifyHtmlOutput := false;
     beautifyHtmlOutput := false; previewBackgroundColor := None |}.

(** A host whose active editor shows [document], with no preview.json. *)
Definition editing (document : TextDocument) (close : bool) : Host :=
  {| activeTextEditor := Some {| document := document |};
     textDocuments := [document];
     rootPath := None;
     configuration := settings close;
     existsSync := fun _ => false;
     readFileSync := fun _ => Throw {| toString := "Error: ENOENT" |} |}.

(** A host with no text editor in front, as when the preview has the focus. *)
Definition unfocused : Host :=
  {| activeTextEditor := None;
     textDocuments := [newsletter];
     rootPath := None;
     configuration := settings false;
     existsSync := fun _ => false;
     readFileSync := fun _ => Throw {| toString := "Error: ENOENT" |} |}.

(** Stand-ins for what the controller imports: a compiler that knows
    [source], and link fixing by [Helper.fixLinks]'s expression. *)
Definition imports : Preview.Imports :=
  {| Preview.mjmlToHtml := fun mjml _ _ _ _ =>
       Return {| Preview.html := if mjml =? source then page else "" |};
     Preview.fixImages := fun text path =>
       Return (LinkRegex.replace (Helper.absolute modules path) text);
     Preview.basename := afterSlash;
     Preview.execHead := fun _ => None;
     Preview.replaceString := fun text _ _ => text |}.

(** The preview is opened on the newsletter and its panel appears. *)
Definition opened (close : bool) : list (Host * Preview.Event) :=
  [ (editing newsletter close, Preview.previewToSide);
    (editing newsletter close, Preview.continues 0);
    (editing newsletter close, Preview.continues 0) ].

End Demo.

(** Stand-ins for the two host functions of the manager, and a source of
    random numbers. *)
Module DemoViews.

Definition parse (text : string) : Uri :=
  {| scheme := "mjml-preview"; fsPath := "/mjml-preview/sidebyside/" |}.

Definition stringify (uri : Uri) : string :=
  "{uri:{scheme:" ++ scheme uri ++ ",fsPath:" ++ fsPath uri ++ "}}".

Definition numbers : IDMap.Random := {| IDMap.draw := fun n => 7 * n + 3; IDMap.drawn := 0 |}.

End DemoViews.

(** * Properties *)

(** ** The tracked documents *)

Module TrackedDocuments.

Import Preview.

Lemma indexOf_lower_bound (l : list string) (x : string) : (-1 <= indexOf l x)%Z.
Proof.
  induction l as [|y r IH]; simpl; [lia|].
  destruct (y =? x); [lia|].
  destruct (indexOf r x <? 0)%Z eqn:E; [lia|].
  apply Z.ltb_ge in E. lia.
Qed.

Lemma indexOf_absent (l : list string) (x : string) :
  indexOf l x = (-1)%Z <-> ~ In x l.
Proof.
  induction l as [|y r IH]; simpl.
  - split; [intros _ []|reflexivity].
  - destruct (String.eqb_spec y x) as [->|Hne].
    + split; [discriminate|]. intros H. exfalso. apply H. now left.
    + pose proof (indexOf_lower_bound r x) as Hlow.
      destruct (indexOf r x <? 0)%Z eqn:E.
      * apply Z.ltb_lt in E.
        assert (Hr : indexOf r x = (-1)%Z) by lia.
        split; [|reflexivity].
        intros _ [H|H]; [contradiction|]. now apply IH in Hr.
      * apply Z.ltb_ge in E. split; [lia|].
        intros H. exfalso.
        assert (Hr : ~ In x r) by (intros Hin; apply H; now right).
        apply IH in Hr. lia.
Qed.

Lemma addDocument_known (x : string) (c : Controller) :
  In x (openedDocuments c) -> addDocument x c = c.
Proof.
  intros Hin. unfold addDocument.
  destruct (indexOf (openedDocuments c) x =? -1)%Z eqn:E; [|reflexivity].
  apply Z.eqb_eq, indexOf_absent in E. contradiction.
Qed.

Lemma addDocument_new (x : string) (c : Controller) :
  ~ In x (openedDocuments c) ->
  openedDocuments (addDocument x c) = (openedDocuments c ++ [x])%list.
Proof.
  intros Hnot. unfold addDocument.
  apply indexOf_absent in Hnot. rewrite Hnot. reflexivity.
Qed.

Lemma addDocument_NoDup (x : string) (c : Controller) :
  NoDup (openedDocuments c) -> NoDup (openedDocuments (addDocument x c)).
Proof.
  intros Hnd. destruct (in_dec string_dec x (openedDocuments c)) as [Hin|Hnot].
  - now rewrite addDocument_known.
  - rewrite addDocument_new by assumption.
    apply NoDup_app; [assumption|constructor; [intros []|constructor]|].
    intros y Hy [<-|[]]. contradiction.
Qed.

Lemma addDocument_webview (x : string) (c : Controller) :
  webview (addDocument x c) = webview c /\ previewOpen (addDocument x c) = previewOpen c.
Proof. unfold addDocument. now destruct (_ =? _)%Z. Qed.

Lemma removeDocument_remove (x : string) (c : Controller) :
  openedDocuments (removeDocument x c) = remove string_dec x (openedDocuments c).
Proof.
  unfold removeDocument. simpl.
  induction (openedDocuments c) as [|y r IH]; simpl; [reflexivity|].
  destruct (string_dec x y) as [<-|Hne].
  - now rewrite String.eqb_refl.
  - destruct (String.eqb_spec y x) as [->|_]; [contradiction|].
    simpl. now rewrite IH.
Qed.

Lemma remove_keeps_others (x y : string) (l : list string) :
  y <> x ->
  count_occ string_dec (remove string_dec x l) y = count_occ string_dec l y.
Proof.
  intros Hne. induction l as [|z r IH]; simpl; [reflexivity|].
  destruct (string_dec x z) as [<-|Hxz].
  - destruct (string_dec x y) as [->|_]; [contradiction|]. exact IH.
  - simpl. destruct (string_dec z y); now rewrite IH.
Qed.

Lemma removeDocument_NoDup (x : string) (c : Controller) :
  NoDup (openedDocuments c) -> NoDup (openedDocuments (removeDocument x c)).
Proof. intros Hnd. unfold removeDocument. simpl. now apply NoDup_filter. Qed.

Section Reachable.

Variable M : Modules.
Variable I : Imports.

Lemma getContentResume_NoDup h document compiled c :
  NoDup (openedDocuments c) ->
  NoDup (openedDocuments (fst (getContentResume I h document compiled c))).
Proof.
  intros Hnd. unfold getContentResume.
  destruct compiled as [text|err]; [|assumption].
  destruct (mjmlToHtml I text false false _ _) as [output|e]; [|assumption].
  destruct (truthy (html output)); [|assumption].
  now apply addDocument_NoDup.
Qed.

Lemma displayWebView_this h document w :
  this (displayWebView M h document w) = this w
  /\ panels (displayWebView M h document w) = panels w
  /\ nextHandle (displayWebView M h document w) = nextHandle w.
Proof.
  unfold displayWebView.
  destruct (negb (Helper.isMJMLFile document)); [easy|].
  now destruct (activeTextEditor h).
Qed.

Lemma disposePanel_openedDocuments handle w :
  openedDocuments (this (disposePanel handle w)) = openedDocuments (this w).
Proof. unfold disposePanel. now destruct (existsb _ _). Qed.

Lemma dispose_openedDocuments w :
  openedDocuments (this (dispose w)) = openedDocuments (this w).
Proof.
  unfold dispose. destruct (webview (this w)); [|reflexivity].
  apply disposePanel_openedDocuments.
Qed.

Lemma displayWebViewResume_openedDocuments h editor content w :
  openedDocuments (this (displayWebViewResume I h editor content w))
  = openedDocuments (this w).
Proof.
  unfold displayWebViewResume.
  destruct (webview (this w)); [reflexivity|].
  now destruct (preserveFocus (configuration h)).
Qed.

Lemma resume_NoDup h n w :
  NoDup (openedDocuments (this w)) ->
  NoDup (openedDocuments (this (resume I h n w))).
Proof.
  intros Hnd. unfold resume.
  destruct (nth_error (suspended w) n) as [[document editor compiled|editor content]|];
    [| |assumption].
  - pose proof (getContentResume_NoDup h document compiled
                  (this (withSuspended (removeNth n (suspended w)) w)) Hnd) as H.
    destruct (getContentResume I h document compiled _) as [c [content|e]];
      exact H.
  - now rewrite displayWebViewResume_openedDocuments.
Qed.

Lemma step_NoDup h e w :
  NoDup (openedDocuments (this w)) ->
  NoDup (openedDocuments (this (step M I h e w))).
Proof.
  intros Hnd.
  destruct e as [|[d|]|[ed|]|[d|]|[d|]|[d|]|handle| |n]; simpl; try assumption.
  - destruct (activeTextEditor h); [|assumption].
    destruct (displayWebView_this h (document t) (setPreviewOpen w)) as [-> _].
    assumption.
  - destruct (_ && _); [|assumption].
    now destruct (displayWebView_this h d w) as [-> _].
  - destruct (_ && _); [|assumption].
    now destruct (displayWebView_this h (document ed) w) as [-> _].
  - destruct (_ && _); [|assumption].
    now destruct (displayWebView_this h d w) as [-> _].
  - destruct (previewOpen (this w)); [|assumption].
    now destruct (displayWebView_this h d w) as [-> _].
  - destruct (_ && _); [|assumption].
    destruct (_ && _).
    + rewrite dispose_openedDocuments. simpl. now apply NoDup_filter.
    + simpl. now apply NoDup_filter.
  - now rewrite disposePanel_openedDocuments.
  - now rewrite dispose_openedDocuments.
  - now apply resume_NoDup.
Qed.

Lemma run_NoDup history w :
  NoDup (openedDocuments (this w)) ->
  NoDup (openedDocuments (this (run M I history w))).
Proof.
  revert w. induction history as [|[h e] rest IH]; intros w Hnd; simpl.
  - assumption.
  - apply IH. now apply step_NoDup.
Qed.

End Reachable.

(** C8. The tracked documents behave as a set. In every world the controller
    reaches, no file name is tracked twice; [addDocument] leaves the
    collection as it is when the name is already in it and appends the name
    otherwise; [removeDocument] takes out every occurrence of the name and
    nothing else, keeping the order; both keep a collection free of
    duplicates. *)
Theorem tracked_documents_form_a_set :
  (forall M I history,
      NoDup (openedDocuments (this (run M I history initial))))
  /\ (forall x c, In x (openedDocuments c) -> addDocument x c = c)
  /\ (forall x c, ~ In x (openedDocuments c) ->
        openedDocuments (addDocument x c) = (openedDocuments c ++ [x])%list)
  /\ (forall x c,
        openedDocuments (removeDocument x c) = remove string_dec x (openedDocuments c)
        /\ ~ In x (openedDocuments (removeDocument x c))
        /\ forall y, y <> x ->
             count_occ string_dec (openedDocuments (removeDocument x c)) y
             = count_occ string_dec (openedDocuments c) y)
  /\ (forall x c, NoDup (openedDocuments c) ->
        NoDup (openedDocuments (addDocument x c))
        /\ NoDup (openedDocuments (removeDocument x c))).
Proof.
  split; [|split; [|split; [|split]]].
  - intros M I history. apply run_NoDup. constructor.
  - exact addDocument_known.
  - exact addDocument_new.
  - intros x c. rewrite removeDocument_remove. split; [reflexivity|split].
    + apply remove_In.
    + intros y Hne. now apply remove_keeps_others.
  - intros x c Hnd. split.
    + now apply addDocument_NoDup.
    + now apply removeDocument_NoDup.
Qed.

(** The theorem at work: the newsletter is added to a collection that holds
    it, and taken out of it. *)
Lemma tracked_documents_witness :
  let c := {| openedDocuments := ["/mail/news.mjml"; "/mail/other.mjml"];
              previewOpen := true; webview := Some 0 |} in
  addDocument "/mail/news.mjml" c = c
  /\ NoDup (openedDocuments (removeDocument "/mail/news.mjml" c)).
Proof.
  split.
  - apply (proj1 (proj2 tracked_documents_form_a_set)). simpl. now left.
  - apply (proj2 (proj2 (proj2 (proj2 tracked_documents_form_a_set)))).
    simpl. repeat constructor; simpl; intuition discriminate.
Defined.

End TrackedDocuments.

(** ** The preview panel *)

Module PanelLifecycle.

Import Preview.

(** The controller's field and the host's live panels agree: no panel when
    the field is undefined, and exactly the panel it names otherwise. *)
Definition onePanel (w : World) : Prop :=
  match webview (this w) with
  | None => panels w = []
  | Some handle => exists p, panels w = [(handle, p)]
  end.

(** The panel [displayWebView] creates. *)
Definition fresh (label content : string) : WebviewPanel :=
  {| viewType := "mjml-preview"; title := label; viewColumn := Two;
     retainContextWhenHidden := true; webview_html := content |}.

(** A panel after [displayWebView] wrote its title and content. *)
Definition updated (label content : string) (p : WebviewPanel) : WebviewPanel :=
  {| viewType := viewType p; title := label; viewColumn := viewColumn p;
     retainContextWhenHidden := retainContextWhenHidden p;
     webview_html := content |}.

Definition labelOf (I : Imports) (editor : TextEditor) : string :=
  "MJML Preview - " ++ basename I (fileName (document editor)).

Lemma disposePanel_onePanel handle w :
  onePanel w -> onePanel (disposePanel handle w).
Proof.
  unfold onePanel, disposePanel. intros H.
  destruct (webview (this w)) as [held|] eqn:Hw.
  - destruct H as [p Hp]. rewrite Hp. simpl.
    destruct (held =? handle)%nat eqn:E; simpl.
    + reflexivity.
    + rewrite Hw. now exists p.
  - rewrite H. simpl. now rewrite Hw.
Qed.

Lemma dispose_onePanel w : onePanel w -> onePanel (dispose w).
Proof.
  intros H. unfold dispose.
  destruct (webview (this w)); [now apply disposePanel_onePanel|assumption].
Qed.

(** [dispose] on a world that holds a live panel leaves no panel. *)
Lemma dispose_held w handle :
  onePanel w -> webview (this w) = Some handle ->
  panels (dispose w) = [] /\ webview (this (dispose w)) = None.
Proof.
  unfold onePanel, dispose, disposePanel. intros H Hw. rewrite Hw in *.
  destruct H as [p Hp]. rewrite Hp. simpl. now rewrite Nat.eqb_refl.
Qed.

Section Reachable.

Variable M : Modules.
Variable I : Imports.

Lemma getContentResume_webview h document compiled c :
  webview (fst (getContentResume I h document compiled c)) = webview c.
Proof.
  unfold getContentResume.
  destruct compiled as [text|err]; [|reflexivity].
  destruct (mjmlToHtml I text false false _ _) as [output|e]; [|reflexivity].
  destruct (truthy (html output)); [|reflexivity].
  apply TrackedDocuments.addDocument_webview.
Qed.

Lemma displayWebView_onePanel h document w :
  onePanel w -> onePanel (displayWebView M h document w).
Proof.
  unfold onePanel.
  destruct (TrackedDocuments.displayWebView_this M h document w) as (-> & -> & _).
  trivial.
Qed.

Lemma displayWebViewResume_creates h editor content w :
  webview (this w) = None ->
  panels (displayWebViewResume I h editor content w)
  = (panels w ++ [(nextHandle w, fresh (labelOf I editor) content)])%list
  /\ webview (this (displayWebViewResume I h editor content w)) = Some (nextHandle w)
  /\ nextHandle (displayWebViewResume I h editor content w) = S (nextHandle w).
Proof.
  intros Hw. unfold displayWebViewResume. rewrite Hw.
  now destruct (preserveFocus (configuration h)).
Qed.

Lemma displayWebViewResume_updates h editor content w handle :
  webview (this w) = Some handle ->
  panels (displayWebViewResume I h editor content w)
  = map (retitle handle (labelOf I editor) content) (panels w)
  /\ this (displayWebViewResume I h editor content w) = this w
  /\ nextHandle (displayWebViewResume I h editor content w) = nextHandle w.
Proof.
  intros Hw. unfold displayWebViewResume. now rewrite Hw.
Qed.

Lemma displayWebViewResume_onePanel h editor content w :
  onePanel w -> onePanel (displayWebViewResume I h editor content w).
Proof.
  intros H. unfold onePanel in *.
  destruct (webview (this w)) as [handle|] eqn:Hw.
  - destruct (displayWebViewResume_updates h editor content w handle Hw)
      as (-> & -> & _).
    rewrite Hw. destruct H as [p ->]. simpl. unfold retitle. simpl.
    rewrite Nat.eqb_refl. eauto.
  - destruct (displayWebViewResume_creates h editor content w Hw) as (-> & -> & _).
    rewrite H. simpl. eauto.
Qed.

Lemma resume_onePanel h n w : onePanel w -> onePanel (resume I h n w).
Proof.
  intros H. unfold resume.
  destruct (nth_error (suspended w) n) as [[document editor compiled|editor content]|];
    [| |assumption].
  - pose proof (getContentResume_webview h document compiled
                  (this (withSuspended (removeNth n (suspended w)) w))) as Hweb.
    destruct (getContentResume I h document compiled _) as [c [content|e]];
      simpl in Hweb; unfold onePanel in *; simpl in *; now rewrite Hweb.
  - now apply displayWebViewResume_onePanel.
Qed.

Lemma step_onePanel h e w : onePanel w -> onePanel (step M I h e w).
Proof.
  intros H.
  destruct e as [|[d|]|[ed|]|[d|]|[d|]|[d|]|handle| |n]; simpl; try assumption.
  - destruct (activeTextEditor h); [|assumption].
    now apply displayWebView_onePanel.
  - destruct (_ && _); [now apply displayWebView_onePanel|assumption].
  - destruct (_ && _); [now apply displayWebView_onePanel|assumption].
  - destruct (_ && _); [now apply displayWebView_onePanel|assumption].
  - destruct (previewOpen (this w)); [now apply displayWebView_onePanel|assumption].
  - destruct (_ && _); [|assumption].
    destruct (_ && _); [apply dispose_onePanel|]; exact H.
  - now apply disposePanel_onePanel.
  - now apply dispose_onePanel.
  - now apply resume_onePanel.
Qed.

Lemma run_onePanel history w : onePanel w -> onePanel (run M I history w).
Proof.
  revert w. induction history as [|[h e] rest IH]; intros w H; simpl.
  - assumption.
  - apply IH. now apply step_onePanel.
Qed.

Lemma reachable_onePanel history : onePanel (run M I history initial).
Proof. apply run_onePanel. reflexivity. Qed.

(** Only the end of [displayWebView] hands out a handle, and only when the
    field is undefined. *)
Lemma step_creates h e w :
  nextHandle (step M I h e w) <> nextHandle w -> webview (this w) = None.
Proof.
  destruct e as [|[d|]|[ed|]|[d|]|[d|]|[d|]|handle| |n]; simpl;
    try (intros H; now contradiction H).
  - destruct (activeTextEditor h) as [editor|]; [|intros H; now contradiction H].
    destruct (TrackedDocuments.displayWebView_this M h (document editor)
                (setPreviewOpen w)) as (_ & _ & ->).
    intros H; now contradiction H.
  - destruct (_ && _); [|intros H; now contradiction H].
    destruct (TrackedDocuments.displayWebView_this M h d w) as (_ & _ & ->).
    intros H; now contradiction H.
  - destruct (_ && _); [|intros H; now contradiction H].
    destruct (TrackedDocuments.displayWebView_this M h (document ed) w) as (_ & _ & ->).
    intros H; now contradiction H.
  - destruct (_ && _); [|intros H; now contradiction H].
    destruct (TrackedDocuments.displayWebView_this M h d w) as (_ & _ & ->).
    intros H; now contradiction H.
  - destruct (previewOpen (this w)); [|intros H; now contradiction H].
    destruct (TrackedDocuments.displayWebView_this M h d w) as (_ & _ & ->).
    intros H; now contradiction H.
  - destruct (_ && _); [|intros H; now contradiction H].
    destruct (_ && _); [|intros H; now contradiction H].
    unfold dispose, disposePanel. simpl.
    destruct (webview (this w)); [|intros H; now contradiction H].
    destruct (existsb _ _); intros H; now contradiction H.
  - unfold disposePanel. destruct (existsb _ _); intros H; now contradiction H.
  - unfold dispose, disposePanel.
    destruct (webview (this w)); [|intros H; now contradiction H].
    destruct (existsb _ _); intros H; now contradiction H.
  - unfold resume.
    destruct (nth_error (suspended w) n) as [[document editor compiled|editor content]|];
      [| |intros H; now contradiction H].
    + pose proof (getContentResume_webview h document compiled
                    (this (withSuspended (removeNth n (suspended w)) w))) as Hweb.
      destruct (getContentResume I h document compiled _) as [c [content|e]];
        simpl; intros H; now contradiction H.
    + destruct (webview (this w)) as [handle|] eqn:Hw; [|reflexivity].
      destruct (displayWebViewResume_updates h editor content
                  (withSuspended (removeNth n (suspended w)) w) handle Hw)
        as (_ & _ & ->).
      simpl. intros H; now contradiction H.
Qed.

End Reachable.

(** C1. The controller owns at most one live panel. In every world it
    reaches, at most one panel is alive, and none is when the [webview] field
    is undefined. A step hands out a new panel handle only when the field is
    undefined. When [displayWebView] gets to its panel with the field
    undefined, it creates one panel with the label and the content and
    stores it in the field; with the field defined, it creates none: the
    panel the field names is the one alive, and it keeps its handle and gets
    the label as title and the content as HTML. *)
Theorem at_most_one_panel (M : Modules) (I : Imports) :
  (forall history,
      let w := run M I history initial in
      List.length (panels w) <= 1 /\ (webview (this w) = None -> panels w = []))
  /\ (forall h e w,
        nextHandle (step M I h e w) <> nextHandle w -> webview (this w) = None)
  /\ (forall h editor content w,
        webview (this w) = None ->
        let w' := displayWebViewResume I h editor content w in
        panels w' = (panels w ++ [(nextHandle w, fresh (labelOf I editor) content)])%list
        /\ webview (this w') = Some (nextHandle w))
  /\ (forall history h editor content handle,
        let w := run M I history initial in
        let w' := displayWebViewResume I h editor content w in
        webview (this w) = Some handle ->
        exists p,
          panels w = [(handle, p)]
          /\ panels w' = [(handle, updated (labelOf I editor) content p)]
          /\ webview (this w') = Some handle
          /\ nextHandle w' = nextHandle w).
Proof.
  split; [|split; [|split]].
  - intros history w. pose proof (reachable_onePanel M I history) as H.
    fold w in H. unfold onePanel in H.
    destruct (webview (this w)) as [handle|].
    + destruct H as [p ->]. simpl. split; [lia|discriminate].
    + rewrite H. simpl. split; [lia|reflexivity].
  - apply step_creates.
  - intros h editor content w Hw w'.
    destruct (displayWebViewResume_creates I h editor content w Hw) as (H1 & H2 & _).
    now split.
  - intros history h editor content handle w w' Hw.
    pose proof (reachable_onePanel M I history) as H.
    fold w in H. unfold onePanel in H. rewrite Hw in H. destruct H as [p Hp].
    destruct (displayWebViewResume_updates I h editor content w handle Hw)
      as (H1 & H2 & H3).
    exists p. fold w' in H1, H2, H3. repeat split.
    + exact Hp.
    + rewrite H1, Hp. simpl. unfold retitle. simpl. now rewrite Nat.eqb_refl.
    + now rewrite H2.
    + exact H3.
Qed.

(** The theorem at work: with the preview open on the newsletter, a second
    rendering updates panel 0 and creates nothing. *)
Lemma at_most_one_panel_witness :
  let w := run Demo.modules Demo.imports (Demo.opened false) initial in
  let w' := displayWebViewResume Demo.imports (Demo.editing Demo.newsletter false)
              {| document := Demo.newsletter |} "<p>new</p>" w in
  exists p,
    panels w = [(0, p)]
    /\ panels w' = [(0, updated "MJML Preview - news.mjml" "<p>new</p>" p)]
    /\ webview (this w') = Some 0
    /\ nextHandle w' = nextHandle w.
Proof.
  exact (proj2 (proj2 (proj2 (at_most_one_panel Demo.modules Demo.imports)))
           (Demo.opened false) (Demo.editing Demo.newsletter false)
           {| document := Demo.newsletter |} "<p>new</p>" 0 eq_refl).
Defined.

(** C5. A document is previewable exactly when its language is mjml and the
    scheme of its URI is not the preview's own; [displayWebView] leaves the
    world as it is for a document that is not previewable. *)
Theorem not_previewable_not_displayed (M : Modules) :
  (forall document,
      Helper.isMJMLFile document = true
      <-> languageId document = "mjml" /\ scheme (uri document) <> "mjml-preview")
  /\ (forall h document w,
        Helper.isMJMLFile document = false -> displayWebView M h document w = w).
Proof.
  split.
  - intros document. unfold Helper.isMJMLFile.
    rewrite andb_true_iff, negb_true_iff, String.eqb_eq.
    destruct (String.eqb_spec (scheme (uri document)) "mjml-preview") as [->|Hne].
    + split; [intros [_ H]; discriminate|intros [_ H]; now contradiction H].
    + tauto.
  - intros h document w H. unfold displayWebView. now rewrite H.
Qed.

(** The theorem at work: the plain-text notes are not displayed. *)
Lemma not_previewable_witness :
  displayWebView Demo.modules (Demo.editing Demo.notes false) Demo.notes initial = initial.
Proof.
  apply (proj2 (not_previewable_not_displayed Demo.modules)). reflexivity.
Defined.

(** C6. A document closes while the preview is open, that is, while
    [previewOpen] is set and the controller holds a panel. Its file name
    leaves the tracked documents. When none is left and the setting
    [autoClosePreview] is on, the panel is disposed of: no panel is alive and
    the field is undefined. When one is left or the setting is off, the panel
    stays alive and stays in the field. *)
Theorem close_event (M : Modules) (I : Imports) history h document handle :
  let w := run M I history initial in
  let w' := step M I h (onDidCloseTextDocument (Some document)) w in
  previewOpen (this w) = true ->
  webview (this w) = Some handle ->
  openedDocuments (this w')
    = remove string_dec (fileName document) (openedDocuments (this w))
  /\ ~ In (fileName document) (openedDocuments (this w'))
  /\ (openedDocuments (this w') = [] /\ autoClosePreview (configuration h) = true ->
      In handle (map fst (panels w))
      /\ panels w' = [] /\ webview (this w') = None)
  /\ (openedDocuments (this w') <> [] \/ autoClosePreview (configuration h) = false ->
      panels w' = panels w /\ webview (this w') = Some handle).
Proof.
  intros w w' Hopen Hweb.
  pose proof (reachable_onePanel M I history) as Hone. fold w in Hone.
  set (closed := withThis (removeDocument (fileName document) (this w)) w).
  assert (Hclosed : onePanel closed /\ webview (this closed) = Some handle).
  { split; [|exact Hweb]. unfold onePanel in *. simpl. exact Hone. }
  assert (Hstep : w' = if (List.length (openedDocuments (this closed)) =? 0)%nat
                            && autoClosePreview (configuration h)
                       then dispose closed else closed).
  { unfold w'. simpl. now rewrite Hopen, Hweb. }
  assert (Hdocs : openedDocuments (this w') = openedDocuments (this closed)).
  { rewrite Hstep. destruct (_ && _); [apply TrackedDocuments.dispose_openedDocuments|reflexivity]. }
  assert (Hremove : openedDocuments (this closed)
                    = remove string_dec (fileName document) (openedDocuments (this w))).
  { apply TrackedDocuments.removeDocument_remove. }
  split; [now rewrite Hdocs|].
  split; [rewrite Hdocs, Hremove; apply remove_In|].
  split.
  - intros [Hempty Hauto]. rewrite Hdocs in Hempty.
    rewrite Hstep, Hempty, Hauto. simpl.
    destruct Hclosed as [Hc1 Hc2].
    split; [|now apply (dispose_held closed handle)].
    unfold onePanel in Hone. rewrite Hweb in Hone. destruct Hone as [p ->].
    now left.
  - intros Hkeep. rewrite Hdocs in Hkeep.
    assert (Hcond : (List.length (openedDocuments (this closed)) =? 0)%nat
                    && autoClosePreview (configuration h) = false).
    { destruct Hkeep as [Hne| ->]; [|apply andb_false_r].
      destruct (openedDocuments (this closed)); [now contradiction Hne|reflexivity]. }
    rewrite Hstep, Hcond. now split.
Qed.

(** The theorem at work: the preview shows the newsletter, which closes. *)
Lemma close_event_witness :
  let h := Demo.editing Demo.newsletter true in
  let w := run Demo.modules Demo.imports (Demo.opened true) initial in
  let w' := step Demo.modules Demo.imports h
              (onDidCloseTextDocument (Some Demo.newsletter)) w in
  openedDocuments (this w') = []
  /\ panels w' = [] /\ webview (this w') = None.
Proof.
  intros h w w'.
  pose proof (close_event Demo.modules Demo.imports (Demo.opened true) h
                Demo.newsletter 0 eq_refl eq_refl) as (H1 & _ & H3 & _).
  split; [exact H1|].
  apply H3. split; reflexivity.
Defined.

End PanelLifecycle.

(** ** The content pipeline *)

Module ContentPipeline.

Lemma find_absent {A} (f : A -> bool) (l : list A) :
  (forall x, In x l -> f x = false) -> find f l = None.
Proof.
  induction l as [|a r IH]; intros H; simpl; [reflexivity|].
  rewrite (H a (or_introl eq_refl)). apply IH.
  intros x Hx. apply H. now right.
Qed.

Lemma truthy_false (s : string) : truthy s = false <-> s = "".
Proof.
  unfold truthy. rewrite negb_false_iff. apply String.eqb_eq.
Qed.

Section WithModules.

Variable M : Modules.

(** A name that no open document has and no file on disk has resolves to
    nothing. *)
Lemma resolveFileOrText_nothing h name :
  (forall d, In d (textDocuments h) -> fileName d <> name) ->
  existsSync h name = false ->
  Helper.resolveFileOrText M h name = Return None.
Proof.
  intros Hopen Hdisk. unfold Helper.resolveFileOrText.
  rewrite find_absent.
  - now rewrite Hdisk, andb_false_r.
  - intros d Hd. apply String.eqb_neq. now apply Hopen.
Qed.

(** [mjml2html] returns, and what it returns is a non-empty string or
    [undefined]. *)
Lemma mjml2html_returns h mjml minify beautify :
  exists result,
    Helper.mjml2html M h mjml minify beautify = Return result
    /\ match result with
       | Some page => truthy page = true /\ activeTextEditor h <> None
       | None => True
       end.
Proof.
  unfold Helper.mjml2html.
  destruct (Helper.compilerCall M h mjml minify beautify) as [r|e] eqn:Hcall.
  - destruct (html r) as [page|] eqn:Hr; simpl.
    + destruct (truthy page) eqn:Ht; eexists; split; try reflexivity; simpl; trivial.
      split; [exact Ht|].
      intros Hnone. unfold Helper.compilerCall, Helper.activeDocument in Hcall.
      rewrite Hnone in Hcall. discriminate.
    + eexists; split; [reflexivity|exact Logic.I].
  - eexists; split; [reflexivity|exact Logic.I].
Qed.

(** With an editor in front, [fixLinks] returns. *)
Lemma fixLinks_returns h text :
  activeTextEditor h <> None -> exists fixed, Helper.fixLinks M h text = Return fixed.
Proof.
  intros H. unfold Helper.fixLinks.
  destruct (activeTextEditor h); [eauto|now contradiction H].
Qed.

End WithModules.

(** C7. The templating pre-pass is the identity without a data source: when
    the active document has no sibling preview.json, neither among the open
    documents nor on disk, [compileHtml] returns the text it was given. *)
Theorem compileHtml_without_data_source (M : Modules) h editor text :
  activeTextEditor h = Some editor ->
  let name := fileName (document editor) in
  let dataFileName := substring name 0 (lastIndexOf name "/"%char) ++ "/preview.json" in
  (forall d, In d (textDocuments h) -> fileName d <> dataFileName) ->
  existsSync h dataFileName = false ->
  Helper.compileHtml M h text = Return text.
Proof.
  intros Heditor name dataFileName Hopen Hdisk.
  unfold Helper.compileHtml, Helper.activeDocument. rewrite Heditor. simpl.
  fold name. fold dataFileName.
  now rewrite (resolveFileOrText_nothing M h dataFileName Hopen Hdisk).
Qed.

(** The theorem at work: the newsletter has no preview.json beside it. *)
Lemma compileHtml_without_data_source_witness :
  Helper.compileHtml Demo.modules (Demo.editing Demo.newsletter false) "<mjml></mjml>"
  = Return "<mjml></mjml>".
Proof.
  apply (compileHtml_without_data_source Demo.modules
           (Demo.editing Demo.newsletter false) {| document := Demo.newsletter |}).
  - reflexivity.
  - simpl. intros d [<-|[]]. discriminate.
  - reflexivity.
Defined.

(** C9. [Helper.mjml2html] never throws. When the call of the compiler
    throws, or its result has no [html] field or an empty one, it returns
    [undefined]; otherwise it returns the result's [html] string. *)
Theorem mjml2html_never_throws (M : Modules) h mjml minify beautify :
  exists result,
    Helper.mjml2html M h mjml minify beautify = Return result
    /\ match Helper.compilerCall M h mjml minify beautify with
       | Throw _ => result = None
       | Return compiled =>
           match html compiled with
           | None => result = None
           | Some page => if page =? "" then result = None else result = Some page
           end
       end.
Proof.
  unfold Helper.mjml2html.
  destruct (Helper.compilerCall M h mjml minify beautify) as [compiled|e].
  - destruct (html compiled) as [page|]; simpl.
    + unfold truthy. destruct (page =? ""); simpl; eauto.
    + eauto.
  - eauto.
Qed.

(** C2. The content of the preview is the final HTML or an error
    placeholder, and producing it never throws. Both previews are covered:
    [getContent] of the webview preview, whose helper functions [mjmlToHtml]
    and [fixImages] are assumed to return, and [renderMJML] of the document
    preview. When the templating pre-pass throws, the content is the
    placeholder around the error's text; when the compiler gives no HTML, it
    is the placeholder around the fixed message; otherwise it is the
    compiled HTML with its links fixed (and, in the webview preview, the
    background colour set). *)
Theorem content_or_placeholder (M : Modules) :
  (forall I h h' document c,
      (forall text path, exists output,
            Preview.mjmlToHtml I text false false path "skip" = Return output) ->
      (forall text path, exists fixed, Preview.fixImages I text path = Return fixed) ->
      exists content,
        snd (Preview.getContent M I h h' document c) = Return content
        /\ match Helper.compileHtml M h (getText document) with
           | Throw err => content = "<body>" ++ toString err ++ "</body>"
           | Return text =>
               exists output,
                 Preview.mjmlToHtml I text false false (fsPath (uri document)) "skip"
                 = Return output
                 /\ if Preview.html output =? ""
                    then content
                         = "<body>Active editor doesn't show a MJML document.</body>"
                    else exists fixed,
                        Preview.fixImages I (Preview.html output) (fsPath (uri document))
                        = Return fixed
                        /\ content = Preview.setBackgroundColor I h' fixed
           end)
  /\ (forall h h' document,
        exists content,
          PreviewContentProvider.renderMJML M h h' document = Return content
          /\ match Helper.compileHtml M h (getText document) with
             | Throw err => content = "<body>" ++ toString err ++ "</body>"
             | Return text =>
                 match Helper.mjml2html M h' text false false with
                 | Return (Some page) => Helper.fixLinks M h' page = Return content
                 | _ => content
                        = "<body>Active editor doesn't show a MJML document.</body>"
                 end
             end).
Proof.
  split.
  - intros I h h' document c Hcompiler Hfix.
    unfold Preview.getContent, Preview.getContentResume.
    destruct (Helper.compileHtml M h (getText document)) as [text|err].
    + destruct (Hcompiler text (fsPath (uri document))) as [output Hout].
      rewrite Hout. unfold truthy.
      destruct (Preview.html output =? "") eqn:Hempty; simpl.
      * eexists. split; [reflexivity|]. exists output. now rewrite Hempty.
      * destruct (Hfix (Preview.html output) (fsPath (uri document))) as [fixed Hfixed].
        rewrite Hfixed. simpl. eexists. split; [reflexivity|].
        exists output. rewrite Hempty. eauto.
    + simpl. eauto.
  - intros h h' document. unfold PreviewContentProvider.renderMJML.
    destruct (Helper.compileHtml M h (getText document)) as [text|err]; [|eauto].
    destruct (mjml2html_returns M h' text false false) as (result & Hresult & Hshape).
    rewrite Hresult. simpl.
    destruct result as [page|]; [|eauto].
    destruct Hshape as [Htruthy Heditor]. rewrite Htruthy.
    destruct (fixLinks_returns M h' page Heditor) as [fixed Hfixed].
    exists fixed. now rewrite Hfixed.
Qed.

(** The theorem at work: the webview preview of the newsletter, with the
    stand-in helper functions, which return on every input. *)
Lemma content_or_placeholder_witness :
  exists content,
    snd (Preview.getContent Demo.modules Demo.imports
           (Demo.editing Demo.newsletter false) (Demo.editing Demo.newsletter false)
           Demo.newsletter (Preview.this Preview.initial))
    = Return content.
Proof.
  destruct (proj1 (content_or_placeholder Demo.modules) Demo.imports
              (Demo.editing Demo.newsletter false) (Demo.editing Demo.newsletter false)
              Demo.newsletter (Preview.this Preview.initial))
    as (content & Hcontent & _).
  - intros text path. simpl. eauto.
  - intros text path. simpl. eauto.
  - exists content. exact Hcontent.
Defined.

End ContentPipeline.
(** ** The export command *)

Module ExportCommand.

(** C3, as the code has it. The export runs the templating pre-pass and the
    compiler, with the settings for minify and beautify, and writes the
    compiler's HTML as it is: the asset links are not rewritten. With both
    settings off, the preview's content is that HTML with its links fixed. *)
Theorem export_writes_compiled_html (M : Modules) resolve h h' h'' answer
    editor editor'' text page :
  activeTextEditor h = Some editor ->
  Helper.isMJMLFile (document editor) = true ->
  activeTextEditor h'' = Some editor'' ->
  Helper.compileHtml M h (getText (document editor)) = Return text ->
  Helper.mjml2html M h' text (minifyHtmlOutput (configuration h'))
    (beautifyHtmlOutput (configuration h')) = Return (Some page) ->
  (exists file,
      ExportHTML.export M resolve h h' h'' answer
      = Return (Helper.callback
                  {| ExportHTML.file := file; ExportHTML.written := page |}))
  /\ (minifyHtmlOutput (configuration h') = false ->
      beautifyHtmlOutput (configuration h') = false ->
      PreviewContentProvider.renderMJML M h h' (document editor)
      = Helper.fixLinks M h' page).
Proof.
  intros Heditor Hmjml Heditor'' Hcompile Hhtml.
  destruct (ContentPipeline.mjml2html_returns M h' text
              (minifyHtmlOutput (configuration h'))
              (beautifyHtmlOutput (configuration h')))
    as (result & Hresult & Hshape).
  rewrite Hhtml in Hresult. injection Hresult as <-.
  destruct Hshape as [Htruthy Heditor'].
  split.
  - unfold ExportHTML.export, Helper.renderMJML, Helper.activeDocument.
    rewrite Heditor. simpl. rewrite Hmjml. simpl. rewrite Hcompile. simpl.
    rewrite Hhtml. simpl. rewrite Htruthy. simpl.
    unfold ExportHTML.write, Helper.activeDocument.
    destruct (activeTextEditor h') as [editor'|]; [|now contradiction Heditor'].
    simpl. rewrite Heditor''. simpl. eauto.
  - intros Hminify Hbeautify. rewrite Hminify, Hbeautify in Hhtml.
    unfold PreviewContentProvider.renderMJML.
    rewrite Hcompile, Hhtml. simpl. now rewrite Htruthy.
Qed.

(** The theorem at work: the newsletter is exported under its own name. *)
Lemma export_writes_compiled_html_witness :
  let h := Demo.editing Demo.newsletter false in
  (exists file,
      ExportHTML.export Demo.modules Demo.resolve h h h None
      = Return (Helper.callback
                  {| ExportHTML.file := file; ExportHTML.written := Demo.page |}))
  /\ PreviewContentProvider.renderMJML Demo.modules h h Demo.newsletter
     = Helper.fixLinks Demo.modules h Demo.page.
Proof.
  intros h.
  destruct (export_writes_compiled_html Demo.modules Demo.resolve h h h None
              {| document := Demo.newsletter |} {| document := Demo.newsletter |}
              Demo.source Demo.page eq_refl eq_refl eq_refl eq_refl eq_refl)
    as [Hexport Hpreview].
  split; [exact Hexport|].
  apply Hpreview; reflexivity.
Defined.

(** C3, as stated, fails: the newsletter's image keeps its relative address
    in the exported file and has an absolute file URL in the preview. *)
Lemma export_keeps_relative_links :
  let h := Demo.editing Demo.newsletter false in
  ExportHTML.export Demo.modules Demo.resolve h h h None
  = Return (Helper.callback
              {| ExportHTML.file := "/mail/news.html";
                 ExportHTML.written :=
                   "<html><head></head><body><img src=" ++ str dquote ++ "logo.png"
                     ++ str dquote ++ "></body></html>" |})
  /\ PreviewContentProvider.renderMJML Demo.modules h h Demo.newsletter
     = Return ("<html><head></head><body><img src=" ++ str dquote
                 ++ "file:///mail/logo.png" ++ str dquote ++ "></body></html>")
  /\ ~ (forall exported,
          ExportHTML.export Demo.modules Demo.resolve h h h None
          = Return (Helper.callback exported) ->
          PreviewContentProvider.renderMJML Demo.modules h h Demo.newsletter
          = Return (ExportHTML.written exported)).
Proof.
  intros h.
  assert (Hexport : ExportHTML.export Demo.modules Demo.resolve h h h None
                    = Return (Helper.callback
                                {| ExportHTML.file := "/mail/news.html";
                                   ExportHTML.written := Demo.page |}))
    by (vm_compute; reflexivity).
  split; [exact Hexport|]. split; [vm_compute; reflexivity|].
  intros H. specialize (H _ Hexport). vm_compute in H. discriminate H.
Qed.

End ExportCommand.

(** ** The link rewriting *)

Module Links.

(** C4 at a single-quoted absolute address. The optional quote of the
    pattern gives way when the lookahead refuses [http] after it: the match
    is then made without the quote, the value starts at the quote, and the
    address is rewritten, in a style sheet's [url('...')] as in a link's
    [href='...']. The same address in double quotes, where the lookahead
    refuses the quote as well, is left alone. *)
Theorem fixLinks_rewrites_single_quoted_http :
  (forall f,
      LinkRegex.replace f ".hero { background: url('https://example.com/bg.png'); }"
      = ".hero { background: url(" ++ f "'https://example.com/bg.png" ++ "'); }")
  /\ (forall f,
        LinkRegex.replace f "<a href='http://example.com/'>"
        = "<a href=" ++ f "'http://example.com/" ++ "'>")
  /\ Helper.fixLinks Demo.modules (Demo.editing Demo.newsletter false)
       ".hero { background: url('https://example.com/bg.png'); }"
     = Return ".hero { background: url(file:///mail/'https://example.com/bg.png'); }"
  /\ (forall f,
        LinkRegex.replace f
          ("<a href=" ++ str dquote ++ "http://example.com/" ++ str dquote ++ ">")
        = "<a href=" ++ str dquote ++ "http://example.com/" ++ str dquote ++ ">").
Proof.
  repeat split; intros; vm_compute; reflexivity.
Qed.

End Links.

(** ** The map of identifiers *)

Module Identifiers.

Import IDMap.

Lemma getByUri_last (map : t) (key : Key) (id uri : string) :
  getByUri (map ++ [(key, id)])%list uri
  = match getByUri map uri with
    | Some found => Some found
    | None => if holds key uri then Some id else None
    end.
Proof.
  induction map as [|[k i] rest IH]; simpl; [reflexivity|].
  destruct (holds k uri); [reflexivity|exact IH].
Qed.

Lemma hasUri_false (map : t) (uri : string) :
  hasUri map uri = false <-> getByUri map uri = None.
Proof.
  unfold hasUri. destruct (getByUri map uri); split; congruence.
Qed.

Lemma add_map (g : Random) (map : t) (d : string) (p : Uri) :
  snd (fst (add g map d p))
  = (map ++ [({| documentUri := d; previewUri := p |}, fst (fst (add g map d p)))])%list.
Proof. unfold add. now destruct (UUIDv4 g). Qed.

Lemma add_other (g : Random) (map : t) (d : string) (p : Uri) (uri : string) :
  d <> uri ->
  getByUri map uri = None ->
  getByUri (snd (fst (add g map d p))) uri = None.
Proof.
  intros Hne Hnone. rewrite add_map, getByUri_last, Hnone.
  unfold holds. cbn [documentUri]. now apply String.eqb_neq in Hne as ->.
Qed.

Lemma added_other (state : t * Random) (entry : string * Uri) (uri : string) :
  fst entry <> uri ->
  getByUri (fst state) uri = None ->
  getByUri (fst (added state entry)) uri = None.
Proof.
  intros Hne Hnone.
  exact (add_other (snd state) (fst state) (fst entry) (snd entry) uri Hne Hnone).
Qed.

Lemma fold_added_other (l : list (string * Uri)) (state : t * Random) (uri : string) :
  ~ In uri (List.map fst l) ->
  getByUri (fst state) uri = None ->
  getByUri (fst (fold_left added l state)) uri = None.
Proof.
  revert state. induction l as [|entry rest IH]; intros state Hnot Hnone.
  - exact Hnone.
  - cbn [fold_left]. apply IH.
    + intros Hin. apply Hnot. now right.
    + apply added_other; [|exact Hnone].
      intros Heq. apply Hnot. now left.
Qed.

Lemma addAll_other (l : list (string * Uri)) (g : Random) (map : t) (uri : string) :
  ~ In uri (List.map fst l) ->
  getByUri map uri = None ->
  getByUri (fst (addAll g map l)) uri = None.
Proof.
  intros Hnot Hnone. unfold addAll. now apply fold_added_other.
Qed.

(** C10. After [add] registers a document that was not registered and
    returns an identifier, [getByUri] of that document returns this
    identifier and [hasUri] returns true. For a string that was never added,
    [getByUri] returns [undefined] and [hasUri] returns false. *)
Theorem IDMap_round_trip :
  (forall g map d p,
      hasUri map d = false ->
      let id := fst (fst (add g map d p)) in
      let map' := snd (fst (add g map d p)) in
      getByUri map' d = Some id /\ hasUri map' d = true)
  /\ (forall g l uri,
        ~ In uri (List.map fst l) ->
        let map := fst (addAll g empty l) in
        getByUri map uri = None /\ hasUri map uri = false).
Proof.
  split.
  - intros g map d p Hnew id map'.
    apply hasUri_false in Hnew.
    assert (H : getByUri map' d = Some id).
    { unfold map', id. rewrite add_map, getByUri_last, Hnew.
      unfold holds. cbn [documentUri]. now rewrite String.eqb_refl. }
    split; [exact H|]. unfold hasUri. now rewrite H.
  - intros g l uri Hnot map.
    assert (H : getByUri map uri = None)
      by (apply addAll_other; [exact Hnot|reflexivity]).
    split; [exact H|]. now apply hasUri_false.
Qed.

(** The theorem at work: one document is added to the empty map. *)
Lemma IDMap_round_trip_witness :
  let g := {| draw := fun n => n; drawn := 0 |} in
  let p := {| scheme := "mjml-preview"; fsPath := "/mjml-preview/sidebyside/" |} in
  let map' := snd (fst (add g empty "news" p)) in
  getByUri map' "news" = Some "01234567-89ab-4cde-b012-3456789abcde"
  /\ hasUri map' "news" = true.
Proof.
  intros g p map'.
  pose proof (proj1 IDMap_round_trip g empty "news" p eq_refl) as H.
  vm_compute in H. vm_compute. exact H.
Defined.

End Identifiers.

(** ** The identifiers of [IDMap] *)

Module UuidFormat.

Import IDMap.

Definition hexDigits : list ascii := list_ascii_of_string "0123456789abcdef".

(** What stands in the identifier where the template has [t]. *)
Definition slot (t c : ascii) : Prop :=
  if Ascii.eqb t "x"%char then In c hexDigits
  else if Ascii.eqb t "y"%char then In c (list_ascii_of_string "89ab")
  else c = t.

(** The draws a template uses: one for each [x] and each [y]. *)
Fixpoint slots (template : string) : nat :=
  match template with
  | EmptyString => 0
  | String c rest =>
      if Ascii.eqb c "x"%char || Ascii.eqb c "y"%char
      then S (slots rest) else slots rest
  end.

Lemma hexDigit_hex (v : nat) : v < 16 -> In (hexDigit v) hexDigits.
Proof.
  intros H. do 16 (destruct v as [|v]; [vm_compute; tauto|]). lia.
Qed.

Lemma hexDigit_variant (r : nat) :
  r < 16 -> In (hexDigit (Nat.lor (Nat.land r 3) 8)) (list_ascii_of_string "89ab").
Proof.
  intros H. do 16 (destruct r as [|r]; [vm_compute; tauto|]). lia.
Qed.

Lemma next_below (g : Random) : fst (next g) < 16.
Proof. unfold next. cbn [fst]. apply Nat.mod_upper_bound. discriminate. Qed.

Lemma fill_step (c : ascii) (rest : string) (g : Random) :
  fill (String c rest) g
  = if Ascii.eqb c "x"%char || Ascii.eqb c "y"%char then
      (String (hexDigit (if Ascii.eqb c "x"%char then fst (next g)
                         else Nat.lor (Nat.land (fst (next g)) 3) 8))
              (fst (fill rest (snd (next g)))),
       snd (fill rest (snd (next g))))
    else (String c (fst (fill rest g)), snd (fill rest g)).
Proof.
  cbn [fill]. unfold next. cbn [fst snd].
  destruct (Ascii.eqb c "x"%char || Ascii.eqb c "y"%char).
  - now destruct (fill rest _).
  - now destruct (fill rest g).
Qed.

Lemma fill_get (template : string) :
  forall (g : Random) (i : nat),
    match String.get i template, String.get i (fst (fill template g)) with
    | Some t, Some c => slot t c
    | None, None => True
    | _, _ => False
    end.
Proof.
  induction template as [|t rest IH]; intros g i.
  - now destruct i.
  - rewrite fill_step.
    destruct (Ascii.eqb t "x"%char) eqn:Hx; cbn [orb fst].
    + destruct i as [|i]; cbn [String.get]; [|apply IH].
      unfold slot. rewrite Hx. apply hexDigit_hex, next_below.
    + destruct (Ascii.eqb t "y"%char) eqn:Hy; cbn [fst].
      * destruct i as [|i]; cbn [String.get]; [|apply IH].
        unfold slot. rewrite Hx, Hy. apply hexDigit_variant, next_below.
      * destruct i as [|i]; cbn [String.get]; [|apply IH].
        unfold slot. now rewrite Hx, Hy.
Qed.

Lemma fill_length (template : string) :
  forall g, String.length (fst (fill template g)) = String.length template.
Proof.
  induction template as [|t rest IH]; intros g; [reflexivity|].
  rewrite fill_step.
  destruct (Ascii.eqb t "x"%char || Ascii.eqb t "y"%char);
    cbn [fst String.length]; now rewrite IH.
Qed.

Lemma fill_drawn (template : string) :
  forall g,
    drawn (snd (fill template g)) = drawn g + slots template
    /\ draw (snd (fill template g)) = draw g.
Proof.
  induction template as [|t rest IH]; intros g.
  - cbn. split; [lia|reflexivity].
  - rewrite fill_step. cbn [slots].
    destruct (Ascii.eqb t "x"%char || Ascii.eqb t "y"%char); cbn [snd].
    + destruct (IH (snd (next g))) as [-> ->]. unfold next. cbn. split; [lia|reflexivity].
    + apply IH.
Qed.

(** X1. Every identifier [UUIDv4] makes has the shape of a version 4 UUID,
    whatever the random numbers: 36 characters, a hyphen at the positions 8,
    13, 18 and 23, the digit 4 at position 14, one of 8, 9, a, b at position
    19, and a lower-case hexadecimal digit everywhere else. Making it takes
    31 random numbers. *)
Theorem UUIDv4_shape (g : Random) :
  let id := fst (UUIDv4 g) in
  String.length id = 36
  /\ (forall i, In i [8; 13; 18; 23] -> String.get i id = Some "-"%char)
  /\ String.get 14 id = Some "4"%char
  /\ (exists c, String.get 19 id = Some c /\ In c (list_ascii_of_string "89ab"))
  /\ (forall i c, String.get i id = Some c -> ~ In i [8; 13; 18; 23] ->
        In c hexDigits)
  /\ drawn (snd (UUIDv4 g)) = drawn g + 31.
Proof.
  intros id. unfold id, UUIDv4.
  set (template := "xxxxxxxx-xxxx-4xxx-yxxx-xxxxxxxxxxxx").
  pose proof (fill_get template g) as Hget.
  split; [now rewrite fill_length|].
  split.
  { intros i Hi. specialize (Hget i).
    destruct Hi as [<-|[<-|[<-|[<-|[]]]]];
      cbn [String.get template] in Hget;
      (destruct (String.get _ (fst (fill template g))) as [c|]; [|contradiction]);
      cbv in Hget; now subst c. }
  split.
  { specialize (Hget 14). cbn [String.get template] in Hget.
    destruct (String.get 14 (fst (fill template g))) as [c|]; [|contradiction].
    cbv in Hget. now subst c. }
  split.
  { specialize (Hget 19). cbn [String.get template] in Hget.
    destruct (String.get 19 (fst (fill template g))) as [c|]; [|contradiction].
    exists c. split; [reflexivity|exact Hget]. }
  split.
  { intros i c Hc Hnot. specialize (Hget i). rewrite Hc in Hget.
    do 36 (destruct i as [|i];
           [cbn [String.get template] in Hget; cbv in Hget; cbv;
            try tauto; try (subst c; tauto);
            exfalso; apply Hnot; cbv; tauto|]).
    cbn [String.get template] in Hget. contradiction. }
  now destruct (fill_drawn template g) as [-> _].
Qed.

End UuidFormat.

(** ** The views of the document-based preview *)

Module Views.

Import IDMap PreviewManager.

Lemma getByUri_In (map : IDMap.t) (uri id : string) :
  getByUri map uri = Some id ->
  exists key, In (key, id) map /\ documentUri key = uri.
Proof.
  induction map as [|[k i] rest IH]; simpl; [discriminate|].
  unfold holds. destruct (String.eqb_spec (documentUri k) uri) as [Heq|_].
  - intros [= <-]. exists k. split; [now left|exact Heq].
  - intros H. destruct (IH H) as (key & Hin & Hkey). exists key. split; [now right|exact Hkey].
Qed.

Lemma get_set_same {V} (m : list (string * V)) (key : string) (value : V) :
  get (set m key value) key = Some value.
Proof.
  induction m as [|[k v] rest IH]; simpl.
  - now rewrite String.eqb_refl.
  - destruct (k =? key) eqn:E; simpl.
    + now rewrite String.eqb_refl.
    + now rewrite E.
Qed.

Lemma get_set_other {V} (m : list (string * V)) (key other : string) (value : V) :
  other <> key -> get (set m key value) other = get m other.
Proof.
  intros Hne. induction m as [|[k v] rest IH]; simpl.
  - destruct (String.eqb_spec key other); [congruence|reflexivity].
  - destruct (String.eqb_spec k key) as [->|Hk]; simpl.
    + destruct (String.eqb_spec key other); [congruence|reflexivity].
    + destruct (k =? other); [reflexivity|exact IH].
Qed.

(** The identifier of a document that is registered stays what it is when a
    document is added, and so does the lookup of every other string. *)
Lemma add_lookup (g : Random) (map : IDMap.t) (d : string) (p : Uri) (uri : string) :
  uri <> d \/ hasUri map uri = true ->
  getByUri (snd (fst (add g map d p))) uri = getByUri map uri.
Proof.
  intros H. rewrite Identifiers.add_map, Identifiers.getByUri_last.
  destruct (getByUri map uri) as [id|] eqn:E; [reflexivity|].
  destruct H as [Hne|Hhas].
  - unfold holds. cbn [documentUri].
    destruct (String.eqb_spec d uri); [congruence|reflexivity].
  - unfold hasUri in Hhas. rewrite E in Hhas. discriminate.
Qed.

Lemma add_registers (g : Random) (map : IDMap.t) (d : string) (p : Uri) :
  hasUri (snd (fst (add g map d p))) d = true.
Proof.
  unfold hasUri. rewrite Identifiers.add_map, Identifiers.getByUri_last.
  destruct (getByUri map d); [reflexivity|].
  unfold holds. cbn [documentUri]. now rewrite String.eqb_refl.
Qed.

Lemma add_In (g : Random) (map : IDMap.t) (d : string) (p : Uri) key id :
  In (key, id) (snd (fst (add g map d p))) <->
  In (key, id) map
  \/ ({| documentUri := d; IDMap.previewUri := p |}, fst (fst (add g map d p))) = (key, id).
Proof.
  rewrite Identifiers.add_map, in_app_iff. cbn [In]. tauto.
Qed.

Section WithHost.

Variable parse : string -> Uri.
Variable stringify : Uri -> string.

(** Every identifier of the [IDMap] is a key of the file map. *)
Definition registered (m : Manager) : Prop :=
  forall key id, In (key, id) (IDMap m) -> exists view, get (fileMap m) id = Some view.

(** Every view of the file map stands under an identifier that the [IDMap]
    gives to the view's own document. *)
Definition owned (m : Manager) : Prop :=
  forall id view,
    get (fileMap m) id = Some view ->
    exists key,
      In (key, id) (IDMap m)
      /\ documentUri key = stringify (uri (document view)).

(** What the command does in each of its two branches. *)
Lemma previewCommand_new h m active :
  Helper.activeDocument h = Return active ->
  hasUri (IDMap m) (stringify (uri active)) = false ->
  let view := newView parse active in
  let added := add (random m) (IDMap m) (stringify (uri active)) (previewUri view) in
  previewCommand parse stringify h m
  = Return {| IDMap := snd (fst added);
              fileMap := set (fileMap m) (fst (fst added)) view;
              random := snd added;
              constructed := (constructed m ++ [view])%list;
              calls := (calls m ++ [execute view])%list |}.
Proof.
  intros Hactive Hnew. unfold previewCommand, createDocumentUri.
  rewrite Hactive. cbn [bind]. rewrite Hnew. cbn [negb bind]. reflexivity.
Qed.

Lemma previewCommand_known h m active :
  Helper.activeDocument h = Return active ->
  hasUri (IDMap m) (stringify (uri active)) = true ->
  previewCommand parse stringify h m
  = match getMaybe (fileMap m) (getByUri (IDMap m) (stringify (uri active))) with
    | Some view =>
        Return {| IDMap := IDMap m; fileMap := fileMap m; random := random m;
                  constructed := constructed m;
                  calls := (calls m ++ [execute view])%list |}
    | None => Throw TypeError
    end.
Proof.
  intros Hactive Hknown. unfold previewCommand, createDocumentUri.
  rewrite Hactive. cbn [bind]. now rewrite Hknown.
Qed.

(** The invariants after a view is stored under an identifier that is
    added, with the view's document, at the end of the [IDMap]. *)
Lemma stored_invariants m view id map' g' calls' :
  map' = (IDMap m
            ++ [({| documentUri := stringify (uri (document view));
                    IDMap.previewUri := previewUri view |}, id)])%list ->
  registered m -> owned m ->
  let m' := {| IDMap := map'; fileMap := set (fileMap m) id view; random := g';
               constructed := (constructed m ++ [view])%list; calls := calls' |} in
  registered m' /\ owned m'.
Proof.
  intros -> Hreg Hown m'. split.
  - intros key i Hin. cbn [IDMap fileMap m'] in *.
    destruct (string_dec i id) as [->|Hne].
    + exists view. apply get_set_same.
    + rewrite get_set_other by exact Hne.
      apply in_app_iff in Hin. destruct Hin as [Hin|[Heq|[]]].
      * now apply (Hreg key).
      * injection Heq as _ Hid. now contradiction Hne.
  - intros i v Hget. cbn [IDMap fileMap m'] in *.
    destruct (string_dec i id) as [->|Hne].
    + rewrite get_set_same in Hget. injection Hget as <-.
      eexists. split; [apply in_app_iff; right; left; reflexivity|reflexivity].
    + rewrite get_set_other in Hget by exact Hne.
      destruct (Hown i v Hget) as (key & Hin & Hkey).
      exists key. split; [apply in_app_iff; now left|exact Hkey].
Qed.

Lemma previewCommand_invariants h m m' :
  registered m -> owned m ->
  previewCommand parse stringify h m = Return m' ->
  registered m' /\ owned m'.
Proof.
  intros Hreg Hown Hrun.
  destruct (Helper.activeDocument h) as [active|e] eqn:Hactive;
    [|unfold previewCommand in Hrun; rewrite Hactive in Hrun; discriminate].
  destruct (hasUri (IDMap m) (stringify (uri active))) eqn:Hhas.
  - rewrite (previewCommand_known h m active Hactive Hhas) in Hrun.
    destruct (getMaybe _ _); [|discriminate].
    injection Hrun as <-. split; assumption.
  - rewrite (previewCommand_new h m active Hactive Hhas) in Hrun.
    cbv zeta in Hrun.
    pose proof (Identifiers.add_map (random m) (IDMap m) (stringify (uri active))
                  (previewUri (newView parse active))) as Hmap.
    remember (add (random m) (IDMap m) (stringify (uri active))
                (previewUri (newView parse active))) as added eqn:Hadded.
    apply (f_equal (fun o => match o with Return x => x | Throw _ => m end)) in Hrun.
    cbv beta iota in Hrun. subst m'.
    exact (stored_invariants m (newView parse active) (fst (fst added))
             (snd (fst added)) (snd added) _ Hmap Hreg Hown).
Qed.

Lemma commands_invariants g history :
  registered (commands parse stringify history (initial g))
  /\ owned (commands parse stringify history (initial g)).
Proof.
  assert (Hgen : forall m, registered m -> owned m ->
                   registered (commands parse stringify history m)
                   /\ owned (commands parse stringify history m)).
  { induction history as [|h rest IH]; intros m Hreg Hown; cbn [commands].
    - now split.
    - destruct (previewCommand parse stringify h m) as [m'|e] eqn:Hrun.
      + destruct (previewCommand_invariants h m m' Hreg Hown Hrun). now apply IH.
      + now apply IH. }
  apply Hgen.
  - intros key id [].
  - intros id view Hget. discriminate.
Qed.

End WithHost.

(** X2. [add] does not disturb the map: the lookup of every string other
    than the document added is unchanged, and so is the lookup of a document
    that was registered before, which keeps its first identifier. *)
Theorem add_keeps_lookups (g : Random) (map : IDMap.t) (d : string) (p : Uri)
    (uri : string) :
  uri <> d \/ hasUri map uri = true ->
  getByUri (snd (fst (add g map d p))) uri = getByUri map uri
  /\ hasUri (snd (fst (add g map d p))) uri = hasUri map uri.
Proof.
  intros H. pose proof (add_lookup g map d p uri H) as Hsame.
  split; [exact Hsame|]. unfold hasUri. now rewrite Hsame.
Qed.

(** The theorem at work: a document registered twice keeps the identifier
    of its first registration. *)
Lemma add_keeps_lookups_witness :
  let g := {| draw := fun n => n; drawn := 0 |} in
  let p := {| scheme := "mjml-preview"; fsPath := "/mjml-preview/sidebyside/" |} in
  let once := add g empty "news" p in
  let twice := add (snd once) (snd (fst once)) "news" p in
  getByUri (snd (fst twice)) "news" = getByUri (snd (fst once)) "news".
Proof.
  intros g p once twice.
  refine (proj1 (add_keeps_lookups (snd once) (snd (fst once)) "news" p "news" _)).
  right. vm_compute. reflexivity.
Defined.

(** X3. With an editor in front, the command never throws, in whatever
    state earlier commands left the manager: the view it looks up for a
    registered document is there. For a document that is not registered it
    constructs one view and registers the document; for a registered one it
    constructs nothing and leaves both maps as they are. Either way the
    document is registered afterwards, so a second command on it constructs
    nothing. *)
Theorem previewCommand_reuses_views parse stringify g history h editor :
  activeTextEditor h = Some editor ->
  let m := commands parse stringify history (PreviewManager.initial g) in
  let d := stringify (uri (Vscode.document editor)) in
  exists m',
    previewCommand parse stringify h m = Return m'
    /\ hasUri (IDMap m') d = true
    /\ (hasUri (IDMap m) d = false ->
        constructed m' = (constructed m ++ [newView parse (Vscode.document editor)])%list)
    /\ (hasUri (IDMap m) d = true ->
        constructed m' = constructed m
        /\ IDMap m' = IDMap m /\ fileMap m' = fileMap m)
    /\ exists m'',
        previewCommand parse stringify h m' = Return m''
        /\ constructed m'' = constructed m'.
Proof.
  intros Heditor m d.
  assert (Hactive : Helper.activeDocument h = Return (Vscode.document editor))
    by (unfold Helper.activeDocument; now rewrite Heditor).
  assert (Hknown : forall m0 : Manager,
             registered m0 -> hasUri (IDMap m0) d = true ->
             exists view,
               previewCommand parse stringify h m0
               = Return {| IDMap := IDMap m0; fileMap := fileMap m0;
                           random := random m0; constructed := constructed m0;
                           calls := (calls m0 ++ [execute view])%list |}).
  { intros m0 Hreg Hhas.
    rewrite (previewCommand_known parse stringify h m0 _ Hactive Hhas).
    fold d. unfold hasUri in Hhas.
    destruct (getByUri (IDMap m0) d) as [id|] eqn:Hid; [|discriminate].
    destruct (getByUri_In _ _ _ Hid) as (key & Hin & _).
    destruct (Hreg key id Hin) as [view Hview].
    exists view. cbn [getMaybe]. now rewrite Hview. }
  destruct (commands_invariants parse stringify g history) as [Hreg Hown].
  fold m in Hreg, Hown.
  destruct (hasUri (IDMap m) d) eqn:Hhas.
  - destruct (Hknown m Hreg Hhas) as [view Hrun].
    eexists. split; [exact Hrun|]. cbn [IDMap constructed fileMap].
    split; [exact Hhas|]. split; [discriminate|]. split; [now intros _|].
    destruct (Hknown _ (proj1 (previewCommand_invariants parse stringify h m _
                                 Hreg Hown Hrun)) Hhas) as [view' Hrun'].
    eexists. split; [exact Hrun'|reflexivity].
  - pose proof (previewCommand_new parse stringify h m _ Hactive Hhas) as Hrun.
    cbv zeta in Hrun. fold d in Hrun.
    eexists. split; [exact Hrun|]. cbn [IDMap constructed fileMap].
    split; [apply add_registers|]. split; [now intros _|]. split; [discriminate|].
    destruct (Hknown _ (proj1 (previewCommand_invariants parse stringify h m _
                                 Hreg Hown Hrun)) (add_registers _ _ _ _))
      as [view' Hrun'].
    eexists. split; [exact Hrun'|reflexivity].
Qed.

(** The theorem at work: the command is run on the newsletter once more. *)
Lemma previewCommand_reuses_views_witness :
  let h := Demo.editing Demo.newsletter false in
  let m := commands DemoViews.parse DemoViews.stringify [h]
             (PreviewManager.initial DemoViews.numbers) in
  exists m', previewCommand DemoViews.parse DemoViews.stringify h m = Return m'.
Proof.
  intros h m.
  destruct (previewCommand_reuses_views DemoViews.parse DemoViews.stringify
              DemoViews.numbers [h] h {| Vscode.document := Demo.newsletter |} eq_refl)
    as (m' & Hrun & _).
  exists m'. exact Hrun.
Defined.

Lemma NoDup_snd_unique {A B} (l : list (A * B)) (a a' : A) (b : B) :
  NoDup (List.map snd l) -> In (a, b) l -> In (a', b) l -> a = a'.
Proof.
  induction l as [|[x y] rest IH]; intros Hnd Hin Hin'; [contradiction|].
  cbn [List.map snd] in Hnd. inversion Hnd as [|? ? Hnot Hrest]; subst.
  destruct Hin as [Heq|Hin]; destruct Hin' as [Heq'|Hin'].
  - congruence.
  - injection Heq as -> ->. exfalso. apply Hnot.
    apply (in_map snd) in Hin'. exact Hin'.
  - injection Heq' as -> ->. exfalso. apply Hnot.
    apply (in_map snd) in Hin. exact Hin.
  - now apply IH.
Qed.

(** X4. As long as the identifiers drawn so far are pairwise distinct, the
    command on a registered document shows a view that was constructed for
    a document with the same URI string: no document is shown another
    document's view. *)
Theorem previewCommand_shows_own_view parse stringify g history h editor :
  let m := commands parse stringify history (PreviewManager.initial g) in
  let d := stringify (uri (Vscode.document editor)) in
  activeTextEditor h = Some editor ->
  NoDup (List.map snd (IDMap m)) ->
  hasUri (IDMap m) d = true ->
  exists view,
    previewCommand parse stringify h m
    = Return {| IDMap := IDMap m; fileMap := fileMap m; random := random m;
                constructed := constructed m;
                calls := (calls m ++ [execute view])%list |}
    /\ stringify (uri (document view)) = d.
Proof.
  intros m d Heditor Hdistinct Hhas.
  assert (Hactive : Helper.activeDocument h = Return (Vscode.document editor))
    by (unfold Helper.activeDocument; now rewrite Heditor).
  destruct (commands_invariants parse stringify g history) as [Hreg Hown].
  fold m in Hreg, Hown.
  rewrite (previewCommand_known parse stringify h m _ Hactive Hhas). fold d.
  unfold hasUri in Hhas.
  destruct (getByUri (IDMap m) d) as [id|] eqn:Hid; [|discriminate].
  destruct (getByUri_In _ _ _ Hid) as (key & Hin & Hkey).
  destruct (Hreg key id Hin) as [view Hview].
  exists view. cbn [getMaybe]. rewrite Hview. split; [reflexivity|].
  destruct (Hown id view Hview) as (key' & Hin' & Hkey').
  rewrite <- Hkey', <- Hkey. f_equal.
  exact (NoDup_snd_unique _ _ _ _ Hdistinct Hin' Hin).
Qed.

(** The theorem at work: the newsletter, registered by a first command, is
    shown its own view by the second. *)
Lemma previewCommand_shows_own_view_witness :
  let h := Demo.editing Demo.newsletter false in
  let m := commands DemoViews.parse DemoViews.stringify [h]
             (PreviewManager.initial DemoViews.numbers) in
  exists view,
    previewCommand DemoViews.parse DemoViews.stringify h m
    = Return {| IDMap := IDMap m; fileMap := fileMap m; random := random m;
                constructed := constructed m;
                calls := (calls m ++ [execute view])%list |}
    /\ DemoViews.stringify (uri (document view))
       = DemoViews.stringify (uri Demo.newsletter).
Proof.
  intros h m.
  apply (previewCommand_shows_own_view DemoViews.parse DemoViews.stringify
           DemoViews.numbers [h] h {| Vscode.document := Demo.newsletter |}).
  - reflexivity.
  - vm_compute. repeat constructor. intros [].
  - vm_compute. reflexivity.
Defined.

End Views.

(** ** File names *)

Module FileNames.

(** The characters of a string. *)
Definition chars (s : string) : list ascii := list_ascii_of_string s.

Lemma lastIndexOf_absent (s : string) (c : ascii) :
  ~ In c (chars s) -> lastIndexOf s c = (-1)%Z.
Proof.
  induction s as [|d r IH]; intros Hnot; cbn [lastIndexOf]; [reflexivity|].
  cbn [chars list_ascii_of_string In] in Hnot.
  rewrite IH by tauto. cbn.
  destruct (Ascii.eqb_spec d c); [|reflexivity]. tauto.
Qed.

Lemma lastIndexOf_last (base rest : string) (c : ascii) :
  ~ In c (chars rest) ->
  lastIndexOf (base ++ String c rest) c = Z.of_nat (String.length base).
Proof.
  intros Hnot. induction base as [|d b IH].
  - cbn [append lastIndexOf String.length].
    rewrite (lastIndexOf_absent rest c Hnot). cbn. now rewrite Ascii.eqb_refl.
  - cbn [append lastIndexOf String.length]. rewrite IH.
    destruct (0 <=? Z.of_nat (String.length b))%Z eqn:E; [lia|].
    apply Z.leb_gt in E. lia.
Qed.

Lemma take_prefix (a b : string) : take (String.length a) (a ++ b) = a.
Proof.
  induction a as [|c a IH]; cbn [String.length append take].
  - now destruct b.
  - now rewrite IH.
Qed.

Lemma drop_zero (s : string) : drop 0 s = s.
Proof. now destruct s. Qed.

Lemma append_length (a b : string) :
  String.length (a ++ b) = String.length a + String.length b.
Proof. induction a as [|c a IH]; cbn; [reflexivity|now rewrite IH]. Qed.

Lemma substring_prefix (a b : string) :
  substring (a ++ b) 0 (Z.of_nat (String.length a)) = a.
Proof.
  unfold substring. rewrite append_length.
  replace (Z.max 0 (Z.min 0 (Z.of_nat (String.length a + String.length b))))
    with 0%Z by lia.
  replace (Z.max 0 (Z.min (Z.of_nat (String.length a))
                          (Z.of_nat (String.length a + String.length b))))
    with (Z.of_nat (String.length a)) by lia.
  replace (Z.min 0 (Z.of_nat (String.length a))) with 0%Z by lia.
  replace (Z.max 0 (Z.of_nat (String.length a))) with (Z.of_nat (String.length a)) by lia.
  rewrite Z.sub_0_r, Nat2Z.id. cbn [Z.to_nat]. rewrite drop_zero. apply take_prefix.
Qed.

Lemma substring_to_minus_one (s : string) : substring s 0 (-1) = "".
Proof.
  unfold substring.
  replace (Z.max 0 (Z.min 0 (Z.of_nat (String.length s)))) with 0%Z by lia.
  replace (Z.max 0 (Z.min (-1) (Z.of_nat (String.length s)))) with 0%Z by lia.
  cbn. now destruct s.
Qed.

Lemma append_assoc (a b c : string) : (a ++ b) ++ c = a ++ b ++ c.
Proof. induction a as [|x a IH]; cbn; [reflexivity|now rewrite IH]. Qed.

Lemma append_empty (a : string) : a ++ "" = a.
Proof. induction a as [|x a IH]; cbn; [reflexivity|now rewrite IH]. Qed.

(** X5. [withoutExtension], the replacement [/\.[^\.]+$/ -> ""] of the
    export: a last extension is cut, whatever stands before it; a name
    without a dot and a name that ends in a dot are kept. So a name typed
    with any extension, .html included, gives the same file as the name
    typed without one. *)
Theorem withoutExtension_cuts_last_extension :
  (forall base extension,
      extension <> "" -> ~ In "."%char (chars extension) ->
      ExportHTML.withoutExtension (base ++ "." ++ extension) = base)
  /\ (forall name,
        ~ In "."%char (chars name) -> ExportHTML.withoutExtension name = name)
  /\ (forall name, ExportHTML.withoutExtension (name ++ ".") = name ++ ".").
Proof.
  split; [|split].
  - intros base extension Hne Hnot. unfold ExportHTML.withoutExtension.
    change (base ++ "." ++ extension) with (base ++ String "."%char extension).
    rewrite lastIndexOf_last by exact Hnot.
    rewrite append_length. cbn [String.length].
    destruct extension as [|c e]; [now contradiction Hne|]. cbn [String.length].
    replace ((0 <=? Z.of_nat (String.length base))
             && (Z.of_nat (String.length base) + 1
                 <? Z.of_nat (String.length base + S (S (String.length e)))))%Z
      with true.
    + apply substring_prefix.
    + symmetry. apply andb_true_iff. split; [apply Z.leb_le|apply Z.ltb_lt]; lia.
  - intros name Hnot. unfold ExportHTML.withoutExtension.
    now rewrite lastIndexOf_absent.
  - intros name. unfold ExportHTML.withoutExtension.
    change (name ++ ".") with (name ++ String "."%char "").
    rewrite lastIndexOf_last by (intros []).
    rewrite append_length. cbn [String.length].
    replace (Z.of_nat (String.length name) + 1
             <? Z.of_nat (String.length name + 1))%Z with false.
    + now rewrite andb_false_r.
    + symmetry. apply Z.ltb_ge. lia.
Qed.

(** The theorem at work: the name of the newsletter. *)
Lemma withoutExtension_witness :
  ExportHTML.withoutExtension ("news.2024" ++ "." ++ "mjml") = "news.2024".
Proof.
  apply (proj1 withoutExtension_cuts_last_extension).
  - discriminate.
  - cbn. intuition discriminate.
Defined.

End FileNames.

(** ** The edges of the content pipeline *)

Module PipelineEdges.

Import FileNames.

Section WithModules.

Variable M : Modules.

(** [compileHtml] with an editor in front, its data file named. *)
Lemma compileHtml_with_editor h editor text :
  activeTextEditor h = Some editor ->
  let name := fileName (document editor) in
  let folder := substring name 0 (lastIndexOf name "/"%char) in
  Helper.compileHtml M h text
  = (let! dataSource := Helper.resolveFileOrText M h (folder ++ "/preview.json") in
     match dataSource with
     | Some source =>
         if truthy source then
           let! config := JSON_parse M source in
           let! data :=
             match helpers config with
             | Some helper =>
                 let! module := import M (folder ++ "/" ++ helper) in
                 set_helpers M (data config) module
             | None => Return (data config)
             end in
           let! compiled := ejs_compile M text name in
           compiled data
         else Return text
     | None => Return text
     end).
Proof.
  intros Heditor. unfold Helper.compileHtml, Helper.activeDocument.
  now rewrite Heditor.
Qed.

Lemma folder_of_path (dir base : string) :
  ~ In "/"%char (chars base) ->
  substring (dir ++ "/" ++ base) 0 (lastIndexOf (dir ++ "/" ++ base) "/"%char) = dir.
Proof.
  intros Hnot. change (dir ++ "/" ++ base) with (dir ++ String "/"%char base).
  rewrite lastIndexOf_last by exact Hnot. apply substring_prefix.
Qed.

Lemma folder_of_name (name : string) :
  ~ In "/"%char (chars name) ->
  substring name 0 (lastIndexOf name "/"%char) = "".
Proof.
  intros Hnot. rewrite lastIndexOf_absent by exact Hnot. apply substring_to_minus_one.
Qed.

End WithModules.

(** X6. The data file of the templating pre-pass is preview.json in the
    directory of the active document: for a file name [dir/base] it is
    [dir/preview.json], and for a name without a slash, as an untitled
    document has, it is [/preview.json] at the root of the file system.
    What is found there decides the outcome: nothing there gives the text
    back, and an error in reading it is the error of [compileHtml]. *)
Theorem compileHtml_data_file (M : Modules) h editor text :
  activeTextEditor h = Some editor ->
  (forall dir base,
      fileName (document editor) = dir ++ "/" ++ base ->
      ~ In "/"%char (chars base) ->
      (Helper.resolveFileOrText M h (dir ++ "/preview.json") = Return None ->
       Helper.compileHtml M h text = Return text)
      /\ (forall e, Helper.resolveFileOrText M h (dir ++ "/preview.json") = Throw e ->
                    Helper.compileHtml M h text = Throw e))
  /\ (~ In "/"%char (chars (fileName (document editor))) ->
      (Helper.resolveFileOrText M h "/preview.json" = Return None ->
       Helper.compileHtml M h text = Return text)
      /\ (forall e, Helper.resolveFileOrText M h "/preview.json" = Throw e ->
                    Helper.compileHtml M h text = Throw e)).
Proof.
  intros Heditor.
  pose proof (compileHtml_with_editor M h editor text Heditor) as Hrun.
  cbv zeta in Hrun. split.
  - intros dir base Hname Hbase. rewrite Hname in Hrun.
    rewrite (folder_of_path dir base Hbase) in Hrun.
    split; [intros Hnone|intros e Hthrow]; rewrite Hrun.
    + now rewrite Hnone.
    + now rewrite Hthrow.
  - intros Hname. rewrite (folder_of_name _ Hname) in Hrun.
    change ("" ++ "/preview.json") with "/preview.json" in Hrun.
    split; [intros Hnone|intros e Hthrow]; rewrite Hrun.
    + now rewrite Hnone.
    + now rewrite Hthrow.
Qed.

(** The theorem at work: the newsletter /mail/news.mjml, with no
    /mail/preview.json. *)
Lemma compileHtml_data_file_witness :
  Helper.compileHtml Demo.modules (Demo.editing Demo.newsletter false) "<mjml></mjml>"
  = Return "<mjml></mjml>".
Proof.
  apply (proj1 (compileHtml_data_file Demo.modules (Demo.editing Demo.newsletter false)
                  {| document := Demo.newsletter |} "<mjml></mjml>" eq_refl)
           "/mail" "news.mjml").
  - reflexivity.
  - cbn. intuition discriminate.
  - reflexivity.
Defined.

(** X7. What the data source holds. An empty preview.json counts as none:
    the text comes back as it is, and the parser is not asked. A
    preview.json that the parser refuses makes [compileHtml] throw the
    parser's error, which the document preview then shows inside its
    placeholder. *)
Theorem compileHtml_data_source (M : Modules) h editor text :
  activeTextEditor h = Some editor ->
  let name := fileName (document editor) in
  let dataFileName := substring name 0 (lastIndexOf name "/"%char) ++ "/preview.json" in
  (Helper.resolveFileOrText M h dataFileName = Return (Some "") ->
   Helper.compileHtml M h text = Return text)
  /\ (forall source e,
        Helper.resolveFileOrText M h dataFileName = Return (Some source) ->
        source <> "" ->
        JSON_parse M source = Throw e ->
        Helper.compileHtml M h text = Throw e
        /\ forall h' shown,
            getText shown = text ->
            PreviewContentProvider.renderMJML M h h' shown
            = Return ("<body>" ++ toString e ++ "</body>")).
Proof.
  intros Heditor name dataFileName.
  pose proof (compileHtml_with_editor M h editor text Heditor) as Hrun.
  cbv zeta in Hrun. fold name in Hrun. fold dataFileName in Hrun.
  split.
  - intros Hempty. rewrite Hrun, Hempty. reflexivity.
  - intros source e Hsource Hne Hparse.
    assert (Hthrow : Helper.compileHtml M h text = Throw e).
    { rewrite Hrun, Hsource. cbn [bind].
      replace (truthy source) with true.
      - now rewrite Hparse.
      - symmetry. unfold truthy. apply negb_true_iff. now apply String.eqb_neq. }
    split; [exact Hthrow|].
    intros h' shown Htext. unfold PreviewContentProvider.renderMJML.
    now rewrite Htext, Hthrow.
Qed.

(** A host where preview.json is open in an editor and is not JSON. *)
Lemma compileHtml_data_source_witness :
  let broken := {| languageId := "json";
                   uri := {| scheme := "file"; fsPath := "/mail/preview.json" |};
                   fileName := "/mail/preview.json";
                   getText := "{" |} in
  let h := {| activeTextEditor := Some {| document := Demo.newsletter |};
              textDocuments := [Demo.newsletter; broken];
              rootPath := None;
              configuration := Demo.settings false;
              existsSync := fun _ => false;
              readFileSync := fun _ => Throw {| toString := "Error: ENOENT" |} |} in
  PreviewContentProvider.renderMJML Demo.modules h h Demo.newsletter
  = Return "<body>SyntaxError: Unexpected token</body>".
Proof.
  intros broken h.
  refine (proj2 (proj2 (compileHtml_data_source Demo.modules h
                          {| document := Demo.newsletter |} (getText Demo.newsletter)
                          eq_refl)
                   "{" {| toString := "SyntaxError: Unexpected token" |} _ _ _)
            h Demo.newsletter eq_refl).
  - reflexivity.
  - discriminate.
  - reflexivity.
Defined.

(** X8. [provideTextDocumentContent] never rejects. A document whose
    language is not mjml gets the placeholder with the fixed message. With
    no text editor in front when the call starts, the content is the
    placeholder around the type error; with none in front when the call
    continues after the pre-pass, it is the placeholder with the fixed
    message: the preview then shows no HTML. *)
Theorem provideTextDocumentContent_returns (M : Modules) h h' shown :
  exists content,
    PreviewContentProvider.provideTextDocumentContent M h h' shown = Return content
    /\ (languageId shown <> "mjml" ->
        content = "<body>Active editor doesn't show a MJML document.</body>")
    /\ (languageId shown = "mjml" -> activeTextEditor h = None ->
        content = "<body>" ++ toString TypeError ++ "</body>")
    /\ (languageId shown = "mjml" -> activeTextEditor h' = None ->
        (exists text, Helper.compileHtml M h (getText shown) = Return text) ->
        content = "<body>Active editor doesn't show a MJML document.</body>").
Proof.
  unfold PreviewContentProvider.provideTextDocumentContent.
  destruct (String.eqb_spec (languageId shown) "mjml") as [Hmjml|Hother]; cbn [negb].
  - unfold PreviewContentProvider.renderMJML.
    destruct (Helper.compileHtml M h (getText shown)) as [text|err] eqn:Hcompile.
    + destruct (ContentPipeline.mjml2html_returns M h' text false false)
        as (result & Hresult & Hshape).
      rewrite Hresult. cbn [bind].
      destruct result as [page|].
      * destruct Hshape as [Htruthy Heditor']. rewrite Htruthy.
        destruct (ContentPipeline.fixLinks_returns M h' page Heditor') as [fixed Hfixed].
        exists fixed. rewrite Hfixed. split; [reflexivity|].
        split; [intros H; now contradiction H|].
        split.
        -- intros _ Hnone. unfold Helper.compileHtml, Helper.activeDocument in Hcompile.
           rewrite Hnone in Hcompile. discriminate.
        -- intros _ Hnone. now contradiction Heditor'.
      * eexists. split; [reflexivity|].
        split; [reflexivity|]. split; [|reflexivity].
        intros _ Hnone. unfold Helper.compileHtml, Helper.activeDocument in Hcompile.
        rewrite Hnone in Hcompile. discriminate.
    + eexists. split; [reflexivity|].
      split; [intros H; now contradiction H|].
      split.
      * intros _ Hnone. unfold Helper.compileHtml, Helper.activeDocument in Hcompile.
        rewrite Hnone in Hcompile. cbn in Hcompile. now injection Hcompile as <-.
      * intros _ _ [text Htext]. discriminate.
  - eexists. split; [reflexivity|].
    split; [reflexivity|]. split; intros H; now contradiction Hother.
Qed.

(** The theorem at work: the preview of the newsletter is asked for its
    content while no text editor is in front. *)
Lemma provideTextDocumentContent_witness :
  PreviewContentProvider.provideTextDocumentContent Demo.modules Demo.unfocused
    Demo.unfocused Demo.newsletter
  = Return "<body>TypeError: Cannot read properties of undefined</body>".
Proof.
  destruct (provideTextDocumentContent_returns Demo.modules Demo.unfocused
              Demo.unfocused Demo.newsletter) as (content & Hrun & _ & Hnone & _).
  rewrite Hrun. f_equal. apply Hnone; reflexivity.
Defined.

(** X9. The export writes a file only for an active document that is an
    MJML file and whose compilation gave HTML: what it writes is that HTML,
    never an empty text. For an active document that is not an MJML file it
    shows the warning and writes nothing. *)
Theorem export_writes_only_html (M : Modules) resolve h h' h'' answer :
  (forall write,
      ExportHTML.export M resolve h h' h'' answer = Return (Helper.callback write) ->
      exists editor text,
        activeTextEditor h = Some editor
        /\ Helper.isMJMLFile (document editor) = true
        /\ Helper.compileHtml M h (getText (document editor)) = Return text
        /\ Helper.mjml2html M h' text (minifyHtmlOutput (configuration h'))
             (beautifyHtmlOutput (configuration h'))
           = Return (Some (ExportHTML.written write))
        /\ ExportHTML.written write <> "")
  /\ (forall editor,
        activeTextEditor h = Some editor ->
        Helper.isMJMLFile (document editor) = false ->
        ExportHTML.export M resolve h h' h'' answer
        = Return (Helper.showWarningMessage "This is not a MJML document!")).
Proof.
  split.
  - intros write Hrun.
    unfold ExportHTML.export, Helper.renderMJML, Helper.activeDocument in Hrun.
    destruct (activeTextEditor h) as [editor|] eqn:Heditor; [|discriminate].
    cbn [bind] in Hrun.
    destruct (Helper.isMJMLFile (document editor)) eqn:Hmjml; [|discriminate].
    cbn [negb bind] in Hrun.
    destruct (Helper.compileHtml M h (getText (document editor))) as [text|e] eqn:Hcompile;
      [|discriminate].
    cbn [bind Helper.orSetting] in Hrun.
    destruct (ContentPipeline.mjml2html_returns M h' text
                (minifyHtmlOutput (configuration h'))
                (beautifyHtmlOutput (configuration h')))
      as (result & Hresult & Hshape).
    rewrite Hresult in Hrun. cbn [bind] in Hrun.
    destruct result as [page|].
    + destruct Hshape as [Htruthy _]. rewrite Htruthy in Hrun. cbn [bind] in Hrun.
      unfold ExportHTML.write, Helper.activeDocument in Hrun.
      destruct (activeTextEditor h'); [|discriminate]. cbn [bind] in Hrun.
      destruct (activeTextEditor h''); [|discriminate]. cbn [bind] in Hrun.
      injection Hrun as <-. cbn [ExportHTML.written].
      exists editor, text. repeat split; try assumption; try reflexivity.
      intros ->. discriminate.
    + destruct (activeTextEditor h'); discriminate.
  - intros editor Heditor Hother.
    unfold ExportHTML.export, Helper.renderMJML, Helper.activeDocument.
    rewrite Heditor. cbn [bind]. now rewrite Hother.
Qed.

(** The theorem at work: the plain-text notes are not exported. *)
Lemma export_writes_only_html_witness :
  let h := Demo.editing Demo.notes false in
  ExportHTML.export Demo.modules Demo.resolve h h h None
  = Return (Helper.showWarningMessage "This is not a MJML document!").
Proof.
  intros h.
  exact (proj2 (export_writes_only_html Demo.modules Demo.resolve h h h None)
           {| document := Demo.notes |} eq_refl eq_refl).
Defined.

(** X10. [renderMJML] asked to fix the links, with minify and beautify
    off, hands its callback what the document preview shows for the active
    document. *)
Theorem renderMJML_with_links_is_the_preview (M : Modules) (R : Type) h h'
    (cb : string -> Outcome R) editor result :
  activeTextEditor h = Some editor ->
  Helper.renderMJML M h h' cb (Some true) (Some false) (Some false)
  = Return (Helper.callback result) ->
  exists content,
    PreviewContentProvider.renderMJML M h h' (document editor) = Return content
    /\ cb content = Return result.
Proof.
  intros Heditor Hrun.
  unfold Helper.renderMJML, Helper.activeDocument in Hrun.
  rewrite Heditor in Hrun. cbn [bind] in Hrun.
  destruct (Helper.isMJMLFile (document editor)); [|discriminate].
  cbn [negb bind] in Hrun.
  unfold PreviewContentProvider.renderMJML.
  destruct (Helper.compileHtml M h (getText (document editor))) as [text|e];
    [|discriminate].
  cbn [bind Helper.orSetting] in Hrun.
  destruct (ContentPipeline.mjml2html_returns M h' text false false)
    as (page & Hpage & Hshape).
  rewrite Hpage in *. cbn [bind] in *.
  destruct page as [page|].
  - destruct Hshape as [Htruthy _]. rewrite Htruthy in *.
    destruct (Helper.fixLinks M h' page) as [fixed|e]; [|discriminate].
    cbn [bind] in Hrun. exists fixed. split; [reflexivity|].
    destruct (cb fixed) as [r|e]; [|discriminate].
    cbn [bind] in Hrun. now injection Hrun as <-.
  - destruct (activeTextEditor h'); discriminate.
Qed.

(** The theorem at work: the newsletter, with a callback that returns what
    it is given. *)
Lemma renderMJML_with_links_witness :
  let h := Demo.editing Demo.newsletter false in
  exists content,
    PreviewContentProvider.renderMJML Demo.modules h h Demo.newsletter = Return content
    /\ Return content
       = Return ("<html><head></head><body><img src=" ++ str dquote
                   ++ "file:///mail/logo.png" ++ str dquote ++ "></body></html>").
Proof.
  intros h.
  apply (renderMJML_with_links_is_the_preview Demo.modules string h h
           (fun content => Return content) {| document := Demo.newsletter |}).
  - reflexivity.
  - vm_compute. reflexivity.
Defined.

End PipelineEdges.

(** ** The link rewriting, where it works *)

Module LinkRewriting.

Import LinkRegex FileNames.

Lemma chars_app (a b : string) : chars (a ++ b) = (chars a ++ chars b)%list.
Proof. induction a as [|c a IH]; cbn; [reflexivity|]. unfold chars in IH. now rewrite IH. Qed.

Lemma first_some_found {A B} (f : A -> option B) (l : list A) (b : B) :
  first_some f l = Some b -> exists a, In a l /\ f a = Some b.
Proof.
  induction l as [|a r IH]; cbn; [discriminate|].
  destruct (f a) as [b'|] eqn:E.
  - intros [= <-]. exists a. split; [now left|exact E].
  - intros H. destruct (IH H) as (a' & Hin & Ha'). exists a'. split; [now right|exact Ha'].
Qed.

Lemma first_some_none {A B} (f : A -> option B) (l : list A) :
  (forall a, In a l -> f a = None) <-> first_some f l = None.
Proof.
  induction l as [|a r IH]; cbn.
  - split; [reflexivity|intros _ a []].
  - split.
    + intros H. rewrite (H a (or_introl eq_refl)). apply IH. intros x Hx. apply H. now right.
    + destruct (f a) eqn:E; [discriminate|].
      intros H x [<-|Hx]; [exact E|]. now apply (proj2 IH).
Qed.

Lemma literal_ci_split (pat s m r : string) :
  literal_ci pat s = Some (m, r) -> s = m ++ r.
Proof.
  revert s m r. induction pat as [|c pat IH]; intros s m r; cbn [literal_ci].
  - now intros [= <- <-].
  - destruct s as [|d s]; [discriminate|].
    destruct (eqb_ci c d); [|discriminate].
    destruct (literal_ci pat s) as [[m' r']|] eqn:E; [|discriminate].
    intros [= <- <-]. cbn. f_equal. now apply IH.
Qed.

(** A match has one of the two separators in it. *)
Lemma match_at_separator (s : string) (m : Match) :
  match_at s = Some m -> In "="%char (chars s) \/ In "("%char (chars s).
Proof.
  unfold match_at. intros H.
  apply first_some_found in H. destruct H as (kw & _ & H).
  destruct (literal_ci kw s) as [[k r1]|] eqn:Hkw; [|discriminate].
  apply literal_ci_split in Hkw. subst s.
  apply first_some_found in H. destruct H as (sep & Hsep & H).
  unfold one_of in H at 1.
  destruct r1 as [|c r2]; [discriminate|].
  cbn [existsb] in H. rewrite orb_false_r in H.
  destruct (Ascii.eqb_spec c sep) as [->|_]; [|discriminate].
  rewrite chars_app. cbn [chars list_ascii_of_string].
  destruct Hsep as [<-|[<-|[]]]; [left|right]; apply in_or_app; right; now left.
Qed.

Lemma replace_unmatched (f : string -> string) (s : string) :
  test s = false -> replace f s = s.
Proof.
  unfold replace. induction s as [|c r IH]; intros H; [reflexivity|].
  cbn [test] in H. cbn [replace_from].
  destruct (match_at (String c r)); [discriminate|].
  now rewrite IH.
Qed.

Lemma test_without_separator (s : string) :
  ~ In "="%char (chars s) -> ~ In "("%char (chars s) -> test s = false.
Proof.
  induction s as [|c r IH]; intros Heq Hpar.
  - reflexivity.
  - cbn [test].
    destruct (match_at (String c r)) as [m|] eqn:E.
    + apply match_at_separator in E. tauto.
    + apply IH; intros Hin; [apply Heq|apply Hpar]; now right.
Qed.

(** X11. A text in which the pattern matches nowhere is returned as it is,
    with or without an editor in front; a text with neither [=] nor [(] in
    it is such a text. *)
Theorem fixLinks_keeps_unmatched_text (M : Modules) :
  (forall h text, test text = false -> Helper.fixLinks M h text = Return text)
  /\ (forall text,
        ~ In "="%char (chars text) -> ~ In "("%char (chars text) ->
        test text = false).
Proof.
  split.
  - intros h text H. unfold Helper.fixLinks.
    destruct (activeTextEditor h); [|now rewrite H].
    f_equal. now apply replace_unmatched.
  - exact test_without_separator.
Qed.

(** The theorem at work: a paragraph without links. *)
Lemma fixLinks_keeps_unmatched_text_witness :
  Helper.fixLinks Demo.modules Demo.unfocused "<p>source: a href, an url</p>"
  = Return "<p>source: a href, an url</p>".
Proof.
  apply (proj1 (fixLinks_keeps_unmatched_text Demo.modules)).
  apply (proj2 (fixLinks_keeps_unmatched_text Demo.modules));
    cbn; intuition discriminate.
Defined.

(** A value the pattern takes whole: not empty, not refused by the
    lookahead, and without a quote, a closing parenthesis or a line break
    in it. *)
Definition plain (v : string) : Prop :=
  v <> ""
  /\ lookahead_blocks v = false
  /\ Forall (fun c => existsb (Ascii.eqb c) closers = false
                      /\ is_line_terminator c = false) (chars v).

Lemma lazy_then_closer_plain (v rest : string) (t : ascii) :
  In t closers ->
  Forall (fun c => existsb (Ascii.eqb c) closers = false
                   /\ is_line_terminator c = false) (chars v) ->
  lazy_then_closer (v ++ String t rest) = Some (v, str t, rest).
Proof.
  intros Ht. induction v as [|c v IH]; intros Hv; cbn [append lazy_then_closer].
  - replace (existsb (Ascii.eqb t) closers) with true; [reflexivity|].
    symmetry. apply existsb_exists. exists t. split; [exact Ht|apply Ascii.eqb_refl].
  - cbn [chars list_ascii_of_string] in Hv. inversion Hv as [|? ? [Hc Hl] Hrest]; subst.
    rewrite Hc, Hl, IH by exact Hrest. reflexivity.
Qed.

Lemma literal_ci_short (pat v rest : string) (t : ascii) :
  (forall c, In c (chars pat) -> eqb_ci c t = false) ->
  literal_ci pat v = None ->
  literal_ci pat (v ++ String t rest) = None.
Proof.
  revert v. induction pat as [|c pat IH]; intros v Hpat Hnone.
  - destruct v; discriminate.
  - destruct v as [|d v]; cbn [append literal_ci] in *.
    + now rewrite (Hpat c (or_introl eq_refl)).
    + destruct (eqb_ci c d); [|reflexivity].
      rewrite IH; [reflexivity| |].
      * intros x Hx. apply Hpat. now right.
      * destruct (literal_ci pat v) as [[? ?]|]; [discriminate|reflexivity].
Qed.

Lemma lookahead_plain (v rest : string) (t : ascii) :
  In t closers -> v <> "" -> lookahead_blocks v = false ->
  lookahead_blocks (v ++ String t rest) = false.
Proof.
  intros Ht Hne Hv. unfold lookahead_blocks in *.
  destruct (first_some (fun pat => literal_ci pat v) _) eqn:E; [discriminate|].
  pose proof (proj2 (first_some_none _ _) E) as Hall.
  replace (first_some (fun pat => literal_ci pat (v ++ String t rest)) _)
    with (@None (string * string)); [reflexivity|].
  symmetry. apply first_some_none.
  destruct v as [|d v]; [now contradiction Hne|].
  intros pat [<-|[<-|[<-|[<-|[]]]]].
  - assert (H : literal_ci "http" (String d v) = None) by (apply Hall; now left).
    apply (literal_ci_short "http" (String d v) rest t); [|exact H].
    destruct Ht as [<-|[<-|[<-|[]]]]; intros c Hc;
      cbn in Hc; destruct Hc as [<-|[<-|[<-|[<-|[]]]]]; reflexivity.
  - assert (H : literal_ci (str backslash) (String d v) = None)
      by (apply Hall; right; now left).
    cbn [str literal_ci append] in *. now destruct (eqb_ci backslash d).
  - assert (H : literal_ci (str dquote) (String d v) = None)
      by (apply Hall; right; right; now left).
    cbn [str literal_ci append] in *. now destruct (eqb_ci dquote d).
  - assert (H : literal_ci "#" (String d v) = None)
      by (apply Hall; right; right; right; now left).
    cbn [literal_ci append] in *. now destruct (eqb_ci "#" d).
Qed.

Lemma value_then_closer_plain (v rest : string) (t : ascii) :
  In t closers -> plain v ->
  value_then_closer (v ++ String t rest) = Some (v, str t, rest).
Proof.
  intros Ht (Hne & Hlook & Hchars). unfold value_then_closer.
  rewrite (lookahead_plain v rest t Ht Hne Hlook).
  destruct v as [|c v]; [now contradiction Hne|]. cbn [append].
  cbn [chars list_ascii_of_string] in Hchars.
  inversion Hchars as [|? ? [_ Hl] Hrest]; subst.
  rewrite Hl, (lazy_then_closer_plain v rest t Ht Hrest). reflexivity.
Qed.

Lemma replace_from_skip (f : string -> string) (a b : string) :
  replace_from f (String.length a) (a ++ b) = replace_from f 0 b.
Proof. induction a as [|c a IH]; [reflexivity|exact IH]. Qed.

(** A match at the head of a text: the three groups are written out, the
    second one through [f], and the rest is rewritten on its own. *)
Lemma replace_matched (f : string -> string) (m : Match) (c : ascii) (a rest : string) :
  matched m = String c a ->
  match_at (String c (a ++ rest)) = Some m ->
  replace f (String c (a ++ rest)) = p1 m ++ f (p2 m) ++ p3 m ++ replace f rest.
Proof.
  intros Hm Hat. unfold replace. cbn [replace_from]. rewrite Hat, Hm.
  cbn [String.length].
  replace (S (String.length a) - 1) with (String.length a) by lia.
  now rewrite replace_from_skip.
Qed.

Lemma replace_plain_reference (f : string -> string) kw sep q t v rest :
  In kw ["src"; "href"; "url"] ->
  In sep ["="%char; "("%char] ->
  In q [squote; dquote] ->
  In t closers ->
  plain v ->
  replace f (kw ++ str sep ++ str q ++ v ++ str t ++ rest)
  = kw ++ str sep ++ str q ++ f v ++ str t ++ replace f rest.
Proof.
  intros Hkw Hsep Hq Ht Hv.
  pose proof (value_then_closer_plain v rest t Ht Hv) as Hvalue.
  change (str t ++ rest) with (String t rest).
  remember (v ++ String t rest) as tail eqn:Htail.
  assert (Hat : match_at (kw ++ str sep ++ str q ++ tail)
                = Some {| p1 := kw ++ str sep ++ str q; p2 := v; p3 := str t |}).
  { destruct Hkw as [<-|[<-|[<-|[]]]]; destruct Hsep as [<-|[<-|[]]];
      destruct Hq as [<-|[<-|[]]];
      cbv - [value_then_closer]; now rewrite Hvalue. }
  assert (Hsplit : exists c a,
             kw ++ str sep ++ str q = String c a
             /\ kw ++ str sep ++ str q ++ tail = String c (a ++ tail)).
  { destruct Hkw as [<-|[<-|[<-|[]]]]; eexists; eexists; split; reflexivity. }
  destruct Hsplit as (c & a & Hhead & Htext).
  rewrite Htext in Hat |- *. subst tail.
  assert (Hwhole : String c (a ++ v ++ String t rest)
                   = String c ((a ++ v ++ str t) ++ rest)).
  { f_equal. rewrite !append_assoc. reflexivity. }
  rewrite Hwhole in Hat |- *.
  rewrite (replace_matched f {| p1 := kw ++ str sep ++ str q; p2 := v; p3 := str t |}
             c (a ++ v ++ str t) rest);
    [|unfold matched; cbn [p1 p2 p3]; rewrite Hhead; reflexivity|exact Hat].
  cbn [p1 p2 p3]. rewrite !append_assoc. reflexivity.
Qed.

(** X12. [fixLinks] rewrites a quoted reference with a plain value at the
    head of a text: for each of the three keywords, either separator, either
    quote and any of the three closers, the value becomes the file URL of
    its path joined to the directory of the active document, what surrounds
    it is kept, and the rest of the text is rewritten on its own. *)
Theorem fixLinks_rewrites_plain_reference (M : Modules) h editor kw sep q t v rest :
  activeTextEditor h = Some editor ->
  In kw ["src"; "href"; "url"] ->
  In sep ["="%char; "("%char] ->
  In q [squote; dquote] ->
  In t closers ->
  plain v ->
  let path := fsPath (uri (document editor)) in
  Helper.fixLinks M h (kw ++ str sep ++ str q ++ v ++ str t ++ rest)
  = Return (kw ++ str sep ++ str q
              ++ fileUrl M (path_join M (path_dirname M path) v)
              ++ str t ++ replace (Helper.absolute M path) rest).
Proof.
  intros Heditor Hkw Hsep Hq Ht Hv path. unfold Helper.fixLinks. rewrite Heditor.
  fold path. f_equal.
  exact (replace_plain_reference (Helper.absolute M path) kw sep q t v rest
           Hkw Hsep Hq Ht Hv).
Qed.

(** The theorem at work: an image with a relative address, in the
    newsletter's directory. *)
Lemma fixLinks_rewrites_plain_reference_witness :
  Helper.fixLinks Demo.modules (Demo.editing Demo.newsletter false)
    ("src" ++ str "="%char ++ str dquote ++ "img/logo.png" ++ str dquote ++ " alt='logo'>")
  = Return ("src" ++ str "="%char ++ str dquote ++ "file:///mail/img/logo.png"
              ++ str dquote ++ " alt='logo'>").
Proof.
  apply (fixLinks_rewrites_plain_reference Demo.modules
           (Demo.editing Demo.newsletter false) {| document := Demo.newsletter |}
           "src" "="%char dquote dquote "img/logo.png" " alt='logo'>").
  - reflexivity.
  - now left.
  - now left.
  - right. now left.
  - right. now left.
  - split; [discriminate|]. split; [reflexivity|].
    repeat constructor.
Defined.

End LinkRewriting.

(** ** The listeners of the controller *)

Module Listeners.

Import Preview.

(** The five listeners the constructor gives to the host. *)
Definition isListener (e : Event) : bool :=
  match e with
  | onDidOpenTextDocument _
  | onDidChangeActiveTextEditor _
  | onDidChangeTextDocument _
  | onDidSaveTextDocument _
  | onDidCloseTextDocument _ => true
  | _ => false
  end.

Lemma step_closed (M : Modules) (I : Imports) h e w :
  isListener e = true -> previewOpen (this w) = false -> step M I h e w = w.
Proof.
  intros He Hclosed.
  destruct e as [|[d|]|[ed|]|[d|]|[d|]|[d|]|handle| |n]; try discriminate;
    cbn [step]; rewrite ?Hclosed; reflexivity.
Qed.

Lemma disposePanel_closes handle p w :
  In (handle, p) (panels w) -> previewOpen (this (disposePanel handle w)) = false.
Proof.
  intros Hin. unfold disposePanel.
  replace (existsb (fun p0 => (fst p0 =? handle)%nat) (panels w)) with true;
    [reflexivity|].
  symmetry. apply existsb_exists. exists (handle, p). split; [exact Hin|].
  apply Nat.eqb_refl.
Qed.

(** X13. The listeners are quiet while the preview is not open: with
    [previewOpen] unset, a document that opens, changes, is saved or
    closes, and an editor that comes to the front, leave the world as it
    is. That is the state before the first command, and again the state
    after a live panel is disposed of, until the command runs anew. *)
Theorem listeners_quiet_when_closed (M : Modules) (I : Imports) h e :
  isListener e = true ->
  (forall w, previewOpen (this w) = false -> step M I h e w = w)
  /\ step M I h e initial = initial
  /\ (forall w handle p,
        In (handle, p) (panels w) ->
        step M I h e (disposePanel handle w) = disposePanel handle w).
Proof.
  intros He. split; [|split].
  - intros w Hclosed. now apply step_closed.
  - now apply step_closed.
  - intros w handle p Hin. apply step_closed; [exact He|].
    now apply (disposePanel_closes handle p).
Qed.

(** The theorem at work: the newsletter is saved before any command. *)
Lemma listeners_quiet_witness :
  step Demo.modules Demo.imports (Demo.editing Demo.newsletter false)
    (onDidSaveTextDocument (Some Demo.newsletter)) initial
  = initial.
Proof.
  exact (proj1 (proj2 (listeners_quiet_when_closed Demo.modules Demo.imports
                         (Demo.editing Demo.newsletter false)
                         (onDidSaveTextDocument (Some Demo.newsletter)) eq_refl))).
Defined.

Lemma addDocument_In (x y : string) (c : Controller) :
  In x (openedDocuments (addDocument y c)) <-> In x (openedDocuments c) \/ x = y.
Proof.
  destruct (in_dec string_dec y (openedDocuments c)) as [Hin|Hnot].
  - rewrite TrackedDocuments.addDocument_known by exact Hin.
    split; [tauto|]. intros [H| ->]; assumption.
  - rewrite TrackedDocuments.addDocument_new by exact Hnot.
    rewrite in_app_iff. cbn [In]. intuition congruence.
Qed.

(** What [getContent], continuing, tracks: nothing, or the document it
    renders, and that only when the compiler gave HTML for it. *)
Lemma getContentResume_tracks (I : Imports) h shown compiled c x :
  In x (openedDocuments (fst (getContentResume I h shown compiled c))) ->
  In x (openedDocuments c)
  \/ (x = fileName shown
      /\ exists text output,
          compiled = Return text
          /\ mjmlToHtml I text false false (fsPath (uri shown)) "skip" = Return output
          /\ html output <> "").
Proof.
  unfold getContentResume.
  destruct compiled as [text|err]; [|now left].
  destruct (mjmlToHtml I text false false _ _) as [output|e] eqn:Hout; [|now left].
  destruct (truthy (html output)) eqn:Htruthy; [|now left].
  cbn [fst]. intros Hin. apply addDocument_In in Hin.
  destruct Hin as [Hin| ->]; [now left|right].
  split; [reflexivity|]. exists text, output. repeat split; [exact Hout|].
  intros Hempty. rewrite Hempty in Htruthy. discriminate.
Qed.

Lemma getContentResume_keeps (I : Imports) h shown compiled c x :
  In x (openedDocuments c) ->
  In x (openedDocuments (fst (getContentResume I h shown compiled c))).
Proof.
  intros Hin. unfold getContentResume.
  destruct compiled as [text|err]; [|exact Hin].
  destruct (mjmlToHtml I text false false _ _) as [output|e]; [|exact Hin].
  destruct (truthy (html output)); [|exact Hin].
  cbn [fst]. apply addDocument_In. now left.
Qed.

(** X14. What the controller tracks. A file name enters the tracked
    documents only when a suspended [getContent] continues for a document
    of that name whose pre-pass returned and whose compilation gave HTML;
    no other event adds a name. A name leaves them only through the
    listener for closed documents: every other event keeps every name. *)
Theorem tracks_rendered_documents (M : Modules) (I : Imports) h e w x :
  (In x (openedDocuments (this (step M I h e w))) ->
   In x (openedDocuments (this w))
   \/ exists n shown editor text output,
       e = continues n
       /\ nth_error (suspended w) n = Some (inGetContent shown editor (Return text))
       /\ x = fileName shown
       /\ mjmlToHtml I text false false (fsPath (uri shown)) "skip" = Return output
       /\ html output <> "")
  /\ ((forall closed, e <> onDidCloseTextDocument closed) ->
      In x (openedDocuments (this w)) ->
      In x (openedDocuments (this (step M I h e w)))).
Proof.
  split.
  - destruct e as [|[d|]|[ed|]|[d|]|[d|]|[d|]|handle| |n]; cbn [step];
      try (intros H; left; exact H).
    + destruct (activeTextEditor h) as [editor|]; [|now left].
      destruct (TrackedDocuments.displayWebView_this M h (document editor)
                  (setPreviewOpen w)) as [-> _]. now left.
    + destruct (_ && _); [|now left].
      destruct (TrackedDocuments.displayWebView_this M h d w) as [-> _]. now left.
    + destruct (_ && _); [|now left].
      destruct (TrackedDocuments.displayWebView_this M h (document ed) w) as [-> _].
      now left.
    + destruct (_ && _); [|now left].
      destruct (TrackedDocuments.displayWebView_this M h d w) as [-> _]. now left.
    + destruct (previewOpen (this w)); [|now left].
      destruct (TrackedDocuments.displayWebView_this M h d w) as [-> _]. now left.
    + destruct (_ && _); [|now left].
      intros H. left.
      assert (Hin : In x (openedDocuments (removeDocument (fileName d) (this w)))).
      { destruct (_ && _); [|exact H].
        now rewrite TrackedDocuments.dispose_openedDocuments in H. }
      cbn in Hin. now apply filter_In in Hin.
    + rewrite TrackedDocuments.disposePanel_openedDocuments. now left.
    + rewrite TrackedDocuments.dispose_openedDocuments. now left.
    + unfold resume.
      destruct (nth_error (suspended w) n) as [[shown editor compiled|editor content]|]
        eqn:Hnth; [| |now left].
      * pose proof (getContentResume_tracks I h shown compiled
                      (this (withSuspended (removeNth n (suspended w)) w)) x) as Htracks.
        destruct (getContentResume I h shown compiled _) as [c [content|err]];
          cbn [fst] in Htracks; cbn [this withSuspended withThis]; intros Hin;
          (destruct (Htracks Hin) as [Hold|(-> & text & output & -> & Hout & Hne)];
           [now left|right; exists n, shown, editor, text, output; auto]).
      * rewrite TrackedDocuments.displayWebViewResume_openedDocuments. now left.
  - intros Hnot Hin.
    destruct e as [|[d|]|[ed|]|[d|]|[d|]|[d|]|handle| |n]; cbn [step];
      try exact Hin; try (now contradiction (Hnot None));
      try (now contradiction (Hnot (Some d))).
    + destruct (activeTextEditor h) as [editor|]; [|exact Hin].
      now destruct (TrackedDocuments.displayWebView_this M h (document editor)
                      (setPreviewOpen w)) as [-> _].
    + destruct (_ && _); [|exact Hin].
      now destruct (TrackedDocuments.displayWebView_this M h d w) as [-> _].
    + destruct (_ && _); [|exact Hin].
      now destruct (TrackedDocuments.displayWebView_this M h (document ed) w) as [-> _].
    + destruct (_ && _); [|exact Hin].
      now destruct (TrackedDocuments.displayWebView_this M h d w) as [-> _].
    + destruct (previewOpen (this w)); [|exact Hin].
      now destruct (TrackedDocuments.displayWebView_this M h d w) as [-> _].
    + now rewrite TrackedDocuments.disposePanel_openedDocuments.
    + now rewrite TrackedDocuments.dispose_openedDocuments.
    + unfold resume.
      destruct (nth_error (suspended w) n) as [[shown editor compiled|editor content]|];
        [| |exact Hin].
      * pose proof (getContentResume_keeps I h shown compiled
                      (this (withSuspended (removeNth n (suspended w)) w)) x Hin)
          as Hkeeps.
        destruct (getContentResume I h shown compiled _) as [c [content|err]];
          exact Hkeeps.
      * now rewrite TrackedDocuments.displayWebViewResume_openedDocuments.
Qed.

(** The theorem at work: the panel of the newsletter is closed by the user,
    and the newsletter stays tracked. *)
Lemma tracks_rendered_documents_witness :
  let w := run Demo.modules Demo.imports (Demo.opened false) initial in
  In "/mail/news.mjml"
     (openedDocuments (this (step Demo.modules Demo.imports
                               (Demo.editing Demo.newsletter false) (panelClosed 0) w))).
Proof.
  intros w.
  apply (proj2 (tracks_rendered_documents Demo.modules Demo.imports
                  (Demo.editing Demo.newsletter false) (panelClosed 0) w
                  "/mail/news.mjml")).
  - discriminate.
  - vm_compute. now left.
Defined.

Lemma step_command (M : Modules) (I : Imports) h editor w :
  activeTextEditor h = Some editor ->
  Helper.isMJMLFile (document editor) = true ->
  step M I h previewToSide w
  = withSuspended
      (suspended w
         ++ [inGetContent (document editor) editor
               (Helper.compileHtml M h (getText (document editor)))])%list
      (setPreviewOpen w).
Proof.
  intros Heditor Hmjml. cbn [step]. rewrite Heditor.
  unfold displayWebView. now rewrite Hmjml, Heditor.
Qed.

Lemma resume_getContent (I : Imports) h n w shown editor compiled c content :
  nth_error (suspended w) n = Some (inGetContent shown editor compiled) ->
  getContentResume I h shown compiled (this w) = (c, Return content) ->
  resume I h n w
  = withSuspended (removeNth n (suspended w) ++ [inDisplayWebView editor content])%list
      (withThis c (withSuspended (removeNth n (suspended w)) w)).
Proof.
  intros Hnth Hcontent. unfold resume. rewrite Hnth.
  cbn [this withSuspended]. now rewrite Hcontent.
Qed.

Lemma resume_displayWebView (I : Imports) h n w editor content :
  nth_error (suspended w) n = Some (inDisplayWebView editor content) ->
  resume I h n w
  = displayWebViewResume I h editor content
      (withSuspended (removeNth n (suspended w)) w).
Proof. intros Hnth. unfold resume. now rewrite Hnth. Qed.

Lemma displayWebViewResume_frame (I : Imports) h editor content w :
  previewOpen (this (displayWebViewResume I h editor content w)) = previewOpen (this w)
  /\ suspended (displayWebViewResume I h editor content w) = suspended w.
Proof.
  unfold displayWebViewResume.
  destruct (webview (this w)); [now split|].
  now destruct (preserveFocus (configuration h)).
Qed.

Lemma getContentResume_previewOpen (I : Imports) h shown compiled c :
  previewOpen (fst (getContentResume I h shown compiled c)) = previewOpen c.
Proof.
  unfold getContentResume.
  destruct compiled as [text|err]; [|reflexivity].
  destruct (mjmlToHtml I text false false _ _) as [output|e]; [|reflexivity].
  destruct (truthy (html output)); [|reflexivity].
  apply TrackedDocuments.addDocument_webview.
Qed.

(** X15. The command opens the preview. With a previewable document in
    front, no panel held and no call suspended, the command and the two
    continuations of its [displayWebView] leave one more panel alive: it has
    the view type mjml-preview, the title MJML Preview and the base name of
    the active file, the second column, and the content [getContent] came
    to. The controller holds it, and the preview is open. *)
Theorem command_opens_panel (M : Modules) (I : Imports) h h' h'' editor w c content :
  activeTextEditor h = Some editor ->
  Helper.isMJMLFile (document editor) = true ->
  suspended w = [] ->
  webview (this w) = None ->
  getContent M I h h' (document editor) (this (setPreviewOpen w)) = (c, Return content) ->
  let w' := run M I [(h, previewToSide); (h', continues 0); (h'', continues 0)] w in
  panels w'
  = (panels w
       ++ [(nextHandle w,
            PanelLifecycle.fresh (PanelLifecycle.labelOf I editor) content)])%list
  /\ webview (this w') = Some (nextHandle w)
  /\ previewOpen (this w') = true
  /\ openedDocuments (this w') = openedDocuments c
  /\ suspended w' = [].
Proof.
  intros Heditor Hmjml Hnone Hweb Hcontent w'.
  unfold getContent in Hcontent.
  set (compiled := Helper.compileHtml M h (getText (document editor))) in *.
  pose proof (PanelLifecycle.getContentResume_webview I h' (document editor) compiled
                (this (setPreviewOpen w))) as Hc.
  pose proof (getContentResume_previewOpen I h' (document editor) compiled
                (this (setPreviewOpen w))) as Hopen.
  rewrite Hcontent in Hc, Hopen. cbn [fst setPreviewOpen this withThis webview previewOpen] in Hc, Hopen.
  rewrite Hweb in Hc.
  unfold w'. cbn [run].
  rewrite (step_command M I h editor w Heditor Hmjml). fold compiled.
  rewrite Hnone. cbn [app step].
  rewrite (resume_getContent I h' 0 _ (document editor) editor compiled c content);
    [|reflexivity|exact Hcontent].
  cbn [suspended withSuspended removeNth app].
  rewrite (resume_displayWebView I h'' 0 _ editor content); [|reflexivity].
  cbn [suspended withSuspended removeNth].
  match goal with
  | |- context [displayWebViewResume I h'' editor content ?x] => set (held := x)
  end.
  assert (Hheld : webview (this held) = None) by exact Hc.
  destruct (PanelLifecycle.displayWebViewResume_creates I h'' editor content held Hheld)
    as (Hpanels & Hwebview & _).
  destruct (displayWebViewResume_frame I h'' editor content held) as [Hpreview Hsuspended].
  rewrite Hpanels, Hwebview, Hpreview, Hsuspended,
    (TrackedDocuments.displayWebViewResume_openedDocuments I h'' editor content held).
  repeat split. exact Hopen.
Qed.

(** The theorem at work: the command on the newsletter, from the start. *)
Lemma command_opens_panel_witness :
  let h := Demo.editing Demo.newsletter false in
  let w' := run Demo.modules Demo.imports (Demo.opened false) initial in
  webview (this w') = Some 0 /\ previewOpen (this w') = true.
Proof.
  intros h w'.
  destruct (command_opens_panel Demo.modules Demo.imports h h h
              {| document := Demo.newsletter |} initial
              (addDocument "/mail/news.mjml"
                 {| openedDocuments := []; previewOpen := true; webview := None |})
              ("<html><head></head><body><img src=" ++ str dquote
                 ++ "file:///mail/logo.png" ++ str dquote ++ "></body></html>")
              eq_refl eq_refl eq_refl eq_refl)
    as (_ & Hweb & Hopen & _).
  - vm_compute. reflexivity.
  - split; [exact Hweb|exact Hopen].
Defined.

End Listeners.
